(** * pomodoro-cli: the session timer of [bubble.go]

    A shallow embedding of [model.Update] and [model.View] and of the
    library functions they call, followed by the properties of the timer
    state machine, of the command line handling and of the session log. *)

From Stdlib Require Import ZArith QArith List String Ascii Bool Lia.
Import ListNotations.

Local Open Scope string_scope.
Local Open Scope Z_scope.

(** ** Go values *)

(** [int64] arithmetic wraps around: the result of an operation is the
    representative of its value in [-2^63, 2^63). *)
Definition wrap64 (z : Z) : Z := (z + 2 ^ 63) mod 2 ^ 64 - 2 ^ 63.

Definition max_int64 : Z := 2 ^ 63 - 1.
Definition min_int64 : Z := - 2 ^ 63.

(** [time.Duration] is an [int64] count of nanoseconds. *)
Definition time_Duration := Z.

Definition Millisecond : time_Duration := 1000000.
Definition Second : time_Duration := 1000 * Millisecond.
Definition Minute : time_Duration := 60 * Second.

(** [d.Milliseconds()]: integer division, which truncates toward zero. *)
Definition Milliseconds (d : time_Duration) : Z := Z.quot d Millisecond.

(** [d.Seconds()]: whole seconds plus the fraction, [float64] in Go.  The
    fraction is kept exact here; [Update] compares the result with -4 and
    with 0 only, and rounding does not move it across a whole number. *)
Definition Seconds (d : time_Duration) : Q :=
  inject_Z (Z.quot d Second) + inject_Z (Z.rem d Second) / inject_Z 1000000000.

(** [d.Minutes()], as [Seconds]. *)
Definition Minutes (d : time_Duration) : Q :=
  inject_Z (Z.quot d Minute) + inject_Z (Z.rem d Minute) / inject_Z 60000000000.

(** [time.Time]: an instant read from the clock, in nanoseconds. *)
Definition Time := Z.

(** The calendar date that [time.Parse(time.DateOnly, _)] returns (as
    midnight UTC of that day). *)
Record Date := mkDate { year : Z; month : Z; day : Z }.

(** The zero [time.Time], January 1 of year 1. *)
Definition zeroDate : Date := mkDate 1 1 1.

(** ** Strings: [strings.HasPrefix], slicing, [strings.TrimSpace] *)

Definition HasPrefix (s p : string) : bool := String.prefix p s.

(** [s[1:]] and [s[2:]] (the source takes them of strings that are long
    enough). *)
Definition from1 (s : string) : string :=
  match s with EmptyString => EmptyString | String _ r => r end.

Definition from2 (s : string) : string := from1 (from1 s).

Definition code (c : ascii) : Z := Z.of_nat (nat_of_ascii c).

(** The ASCII white space of [strings.TrimSpace]: tab, line feed, vertical
    tab, form feed, carriage return and space. *)
Definition asciiSpace (c : ascii) : bool :=
  let n := code c in ((9 <=? n) && (n <=? 13)) || (n =? 32).

(** The white space of [unicode.IsSpace] beyond ASCII, by its UTF-8
    encoding: U+0085 and U+00A0 take two bytes, U+1680, U+2000 to U+200A,
    U+2028, U+2029, U+202F, U+205F and U+3000 take three. *)
Definition space2 (a b : ascii) : bool :=
  (code a =? 194) && ((code b =? 133) || (code b =? 160)).

Definition space3 (a b c : ascii) : bool :=
  let '(x, y, z) := (code a, code b, code c) in
  ((x =? 225) && (y =? 154) && (z =? 128))
  || ((x =? 226) && (y =? 128)
      && (((128 <=? z) && (z <=? 138)) || (z =? 168) || (z =? 169) || (z =? 175)))
  || ((x =? 226) && (y =? 129) && (z =? 159))
  || ((x =? 227) && (y =? 128) && (z =? 128)).

(** Drops the white space at the front of [s].  With [back] set the string
    is read from its end, so the bytes of one character come in reverse. *)
Fixpoint trimFront (back : bool) (s : string) : string :=
  match s with
  | EmptyString => EmptyString
  | String a s1 =>
      if asciiSpace a then trimFront back s1
      else
        match s1 with
        | EmptyString => s
        | String b s2 =>
            if (if back then space2 b a else space2 a b) then trimFront back s2
            else
              match s2 with
              | EmptyString => s
              | String c s3 =>
                  if (if back then space3 c b a else space3 a b c)
                  then trimFront back s3
                  else s
              end
        end
  end.

Fixpoint rev_string (acc s : string) : string :=
  match s with
  | EmptyString => acc
  | String a r => rev_string (String a acc) r
  end.

Definition TrimSpace (s : string) : string :=
  rev_string "" (trimFront true (rev_string "" (trimFront false s))).

(** ** [time.Parse(time.DateOnly, _)]

    The layout is [2006-01-02]: four digits, a dash, two digits, a dash,
    two digits and nothing after them; then the month has to be one of 1 to
    12 and the day one of that month in that year. *)

Definition isDigit (c : ascii) : bool := (48 <=? code c) && (code c <=? 57).

Definition digit (c : ascii) : Z := code c - 48.

Definition isLeap (y : Z) : bool :=
  (y mod 4 =? 0) && (negb (y mod 100 =? 0) || (y mod 400 =? 0)).

Definition daysIn (m y : Z) : Z :=
  if m =? 2 then (if isLeap y then 29 else 28)
  else if (m =? 4) || (m =? 6) || (m =? 9) || (m =? 11) then 30
  else 31.

Definition dash : ascii := "-"%char.

Definition Parse_DateOnly (value : string) : option Date :=
  match value with
  | String y1 (String y2 (String y3 (String y4 (String s1
      (String m1 (String m2 (String s2 (String d1 (String d2 EmptyString))))))))) =>
      if forallb isDigit [y1; y2; y3; y4; m1; m2; d1; d2]
         && Ascii.eqb s1 dash && Ascii.eqb s2 dash
      then
        let y := 1000 * digit y1 + 100 * digit y2 + 10 * digit y3 + digit y4 in
        let m := 10 * digit m1 + digit m2 in
        let d := 10 * digit d1 + digit d2 in
        if (1 <=? m) && (m <=? 12) && (1 <=? d) && (d <=? daysIn m y)
        then Some (mkDate y m d)
        else None
      else None
  | _ => None
  end.

(** ** Messages: [tea.Msg] *)

(** A key press.  [KeyRunes] carries the typed characters. *)
Inductive Key :=
| KeyRunes (runes : string)
| KeyEnter
| KeyCtrlC
| KeyEsc
| KeyBackspace
| KeyTab.

(** [msg.Type]: control keys have their ASCII code, [KeyRunes] is [-1]. *)
Definition key_Type (k : Key) : Z :=
  match k with
  | KeyRunes _ => -1
  | KeyEnter => 13
  | KeyCtrlC => 3
  | KeyEsc => 27
  | KeyBackspace => 127
  | KeyTab => 9
  end.

(** [msg.String()], which [key.Matches] compares with a binding's keys. *)
Definition key_String (k : Key) : string :=
  match k with
  | KeyRunes r => r
  | KeyEnter => "enter"
  | KeyCtrlC => "ctrl+c"
  | KeyEsc => "esc"
  | KeyBackspace => "backspace"
  | KeyTab => "tab"
  end.

(** [keys.Stop] and [keys.Quit]. *)
Definition Stop : list string := ["x"].
Definition Quit : list string := ["q"; "esc"; "ctrl+c"].

Definition Matches (k : Key) (binding : list string) : bool :=
  existsb (String.eqb (key_String k)) binding.

Inductive Msg :=
| KeyMsg (k : Key)
| WindowSizeMsg (Width Height : Z)
| tickMsg
| otherMsg.

(** [tea.Cmd]: nothing, [tea.Quit], or [tickCmd()], which delivers one
    [tickMsg] a second later. *)
Inductive Cmd := CmdNil | CmdQuit | CmdTick.

(** ** The model *)

Record session := mkSession {
  StartTime : Time;
  EndTime : Time;
  Duration : time_Duration
}.

Definition padding : Z := 2.
Definition maxWidth : Z := 80.
Definition workSession : string := "Work".
Definition breakSession : string := "Break".

(** The fields that [Update] and [View] use.  [textarea] is the text held
    by the input widget, [progress_Width] the width of the progress bar;
    [percent] is a [float64], kept as the exact fraction. *)
Record model := mkModel {
  sessions : list session;
  percent : Q;
  progress_Width : Z;
  textarea : string;
  timerDuration : time_Duration;
  remainingTime : time_Duration;
  startTime : Time;
  inSession : bool;
  opening : bool;
  closing : bool;
  showSession : bool;
  printDifferentDate : bool;
  datePrint : Date;
  sessionType : string;
  err : string
}.

Definition set_sessions (v : list session) (m : model) : model :=
  mkModel v (percent m) (progress_Width m) (textarea m) (timerDuration m)
    (remainingTime m) (startTime m) (inSession m) (opening m) (closing m)
    (showSession m) (printDifferentDate m) (datePrint m) (sessionType m) (err m).

Definition set_percent (v : Q) (m : model) : model :=
  mkModel (sessions m) v (progress_Width m) (textarea m) (timerDuration m)
    (remainingTime m) (startTime m) (inSession m) (opening m) (closing m)
    (showSession m) (printDifferentDate m) (datePrint m) (sessionType m) (err m).

Definition set_progress_Width (v : Z) (m : model) : model :=
  mkModel (sessions m) (percent m) v (textarea m) (timerDuration m)
    (remainingTime m) (startTime m) (inSession m) (opening m) (closing m)
    (showSession m) (printDifferentDate m) (datePrint m) (sessionType m) (err m).

Definition set_textarea (v : string) (m : model) : model :=
  mkModel (sessions m) (percent m) (progress_Width m) v (timerDuration m)
    (remainingTime m) (startTime m) (inSession m) (opening m) (closing m)
    (showSession m) (printDifferentDate m) (datePrint m) (sessionType m) (err m).

Definition set_timerDuration (v : time_Duration) (m : model) : model :=
  mkModel (sessions m) (percent m) (progress_Width m) (textarea m) v
    (remainingTime m) (startTime m) (inSession m) (opening m) (closing m)
    (showSession m) (printDifferentDate m) (datePrint m) (sessionType m) (err m).

Definition set_remainingTime (v : time_Duration) (m : model) : model :=
  mkModel (sessions m) (percent m) (progress_Width m) (textarea m)
    (timerDuration m) v (startTime m) (inSession m) (opening m) (closing m)
    (showSession m) (printDifferentDate m) (datePrint m) (sessionType m) (err m).

Definition set_startTime (v : Time) (m : model) : model :=
  mkModel (sessions m) (percent m) (progress_Width m) (textarea m)
    (timerDuration m) (remainingTime m) v (inSession m) (opening m) (closing m)
    (showSession m) (printDifferentDate m) (datePrint m) (sessionType m) (err m).

Definition set_inSession (v : bool) (m : model) : model :=
  mkModel (sessions m) (percent m) (progress_Width m) (textarea m)
    (timerDuration m) (remainingTime m) (startTime m) v (opening m) (closing m)
    (showSession m) (printDifferentDate m) (datePrint m) (sessionType m) (err m).

Definition set_opening (v : bool) (m : model) : model :=
  mkModel (sessions m) (percent m) (progress_Width m) (textarea m)
    (timerDuration m) (remainingTime m) (startTime m) (inSession m) v (closing m)
    (showSession m) (printDifferentDate m) (datePrint m) (sessionType m) (err m).

Definition set_closing (v : bool) (m : model) : model :=
  mkModel (sessions m) (percent m) (progress_Width m) (textarea m)
    (timerDuration m) (remainingTime m) (startTime m) (inSession m) (opening m) v
    (showSession m) (printDifferentDate m) (datePrint m) (sessionType m) (err m).

Definition set_showSession (v : bool) (m : model) : model :=
  mkModel (sessions m) (percent m) (progress_Width m) (textarea m)
    (timerDuration m) (remainingTime m) (startTime m) (inSession m) (opening m)
    (closing m) v (printDifferentDate m) (datePrint m) (sessionType m) (err m).

Definition set_printDifferentDate (v : bool) (m : model) : model :=
  mkModel (sessions m) (percent m) (progress_Width m) (textarea m)
    (timerDuration m) (remainingTime m) (startTime m) (inSession m) (opening m)
    (closing m) (showSession m) v (datePrint m) (sessionType m) (err m).

Definition set_datePrint (v : Date) (m : model) : model :=
  mkModel (sessions m) (percent m) (progress_Width m) (textarea m)
    (timerDuration m) (remainingTime m) (startTime m) (inSession m) (opening m)
    (closing m) (showSession m) (printDifferentDate m) v (sessionType m) (err m).

Definition set_sessionType (v : string) (m : model) : model :=
  mkModel (sessions m) (percent m) (progress_Width m) (textarea m)
    (timerDuration m) (remainingTime m) (startTime m) (inSession m) (opening m)
    (closing m) (showSession m) (printDifferentDate m) (datePrint m) v (err m).

Definition set_err (v : string) (m : model) : model :=
  mkModel (sessions m) (percent m) (progress_Width m) (textarea m)
    (timerDuration m) (remainingTime m) (startTime m) (inSession m) (opening m)
    (closing m) (showSession m) (printDifferentDate m) (datePrint m)
    (sessionType m) v.

(** [m.textarea.Reset()] *)
Definition textarea_Reset (m : model) : model := set_textarea "" m.

(** ** What [Update] gets from outside [bubble.go] *)

(** Modelled from the spec: [checkValidMinute(&m, command)] is not among
    the sources.  It hands back the minutes and whether the command is
    valid, and it reports an invalid command by the reason it leaves in
    [m.err], which is all it does to the model. *)
Record minuteCheck := mkCheck {
  numOfMinutes : Z;
  ok : bool;
  reason : option string
}.

(** The collaborators of [Update]: the text input widget
    ([m.textarea.Update(msg)], given as the text held afterwards), the
    store ([saveSessions], given as the error message of a failed save) and
    the minute check of the start commands. *)
Class Externals := {
  textarea_Update : Msg -> string -> string;
  saveSessions : list session -> option string;
  checkValidMinute : string -> minuteCheck
}.

(** The value of a string of decimal digits read from the left, [acc]
    being the value of the digits read before. *)
Fixpoint decimal (acc : Z) (s : string) : option Z :=
  match s with
  | EmptyString => Some acc
  | String c r => if isDigit c then decimal (10 * acc + digit c) r else None
  end.

(** A number without sign: one decimal digit at least. *)
Definition number (s : string) : option Z :=
  match s with
  | EmptyString => None
  | _ => decimal 0 s
  end.

(** Modelled from the spec: the body of [checkValidMinute], after section
    4.1.  The single letter asks for the default, written as 0 minutes; a
    space and a number give that number; a suffix without the space is an
    "Invalid command" and any other suffix an "Invalid minute". *)
Definition checkValidMinute_spec (command : string) : minuteCheck :=
  if String.eqb (from1 command) "" then mkCheck 0 true None
  else if negb (HasPrefix (from1 command) " ")
  then mkCheck 0 false (Some "Invalid command")
  else
    match number (TrimSpace (from2 command)) with
    | Some n => mkCheck n true None
    | None => mkCheck 0 false (Some "Invalid minute")
    end.

(** ** [Update] *)

Section Update.

Context {E : Externals}.

(** The block both start commands run when no session is on: lines 113 to
    121 for work, 136 to 144 for a break. *)
Definition start (ty : string) (minutes : Z) (now : Time) (m : model) : model :=
  let m := set_startTime now m in
  let m := set_sessionType ty m in
  let m := set_timerDuration (wrap64 (minutes * Minute)) m in
  let m := set_remainingTime (wrap64 (timerDuration m + 3 * Second)) m in
  let m := set_percent 0%Q m in
  let m := set_inSession true m in
  let m := set_opening true m in
  set_closing false m.

(** A start command: [dflt] is 25 for work and 5 for a break. *)
Definition startCommand (ty : string) (dflt : Z) (command : string)
    (now : Time) (m : model) : model * Cmd :=
  let r := checkValidMinute command in
  let m := match reason r with Some e => set_err e m | None => m end in
  if negb (ok r) then (m, CmdNil)
  else
    let minutes := if numOfMinutes r =? 0 then dflt else numOfMinutes r in
    if negb (inSession m) then (start ty minutes now m, CmdTick)
    else (m, CmdNil).

(** The list command, lines 148 to 171. *)
Definition listCommand (command : string) (m : model) : model * Cmd :=
  if String.eqb command "l"
  then (set_showSession true (set_printDifferentDate false m), CmdNil)
  else if negb (HasPrefix (from1 command) " ")
  then (set_err "Invalid command" m, CmdNil)
  else
    match Parse_DateOnly (TrimSpace (from2 command)) with
    | None => (set_err "Invalid date format" m, CmdNil)
    | Some date =>
        (set_showSession true (set_datePrint date (set_printDifferentDate true m)),
         CmdNil)
    end.

(** [case tea.KeyEnter], lines 95 to 179. *)
Definition enter (now : Time) (m : model) : model * Cmd :=
  let command := textarea m in
  let m := textarea_Reset m in
  if String.eqb command "q" then (m, CmdQuit)
  else if HasPrefix command "s" then startCommand workSession 25 command now m
  else if HasPrefix command "b" then startCommand breakSession 5 command now m
  else if HasPrefix command "l" then listCommand command m
  else (set_err "Invalid command" m, CmdNil).

(** [case tea.KeyMsg], lines 65 to 185.  [tea.KeyType('q')] is the number
    113, which is the type of no key. *)
Definition keyMsg (now : Time) (k : Key) (m : model) : model * Cmd :=
  if inSession m && (opening m || closing m) then (m, CmdNil)
  else if inSession m && Matches k Stop
  then (textarea_Reset (set_inSession false m), CmdNil)
  else if inSession m && Matches k Quit then (m, CmdQuit)
  else if showSession m && Matches k Stop
  then (textarea_Reset (set_showSession false m), CmdNil)
  else
    let m := set_err "" m in
    if (key_Type k =? key_Type KeyCtrlC) || (key_Type k =? key_Type KeyEsc)
    then (m, CmdQuit)
    else if key_Type k =? 113 then (m, CmdNil)
    else if key_Type k =? key_Type KeyEnter then enter now m
    else (m, CmdNil).

(** [case tickMsg], lines 194 to 233.  [now] is what [time.Now()] returns
    when the session is recorded. *)
Definition tick (now : Time) (m : model) : model * Cmd :=
  if negb (inSession m) then (m, CmdNil)
  else
    let m := set_remainingTime (wrap64 (remainingTime m - 1 * Second)) m in
    if opening m then
      let m :=
        if Milliseconds (remainingTime m) <=? Milliseconds (timerDuration m)
        then set_opening false m else m in
      (m, CmdTick)
    else if Qle_bool (Seconds (remainingTime m)) (inject_Z (-4)) then
      let m := set_closing false m in
      let m := set_inSession false m in
      let m :=
        if String.eqb (sessionType m) workSession then
          let endSession := now in
          let m := set_sessions
                     (sessions m
                      ++ [mkSession (startTime m) endSession (timerDuration m)])
                     m in
          match saveSessions (sessions m) with
          | Some e => set_err e m
          | None => m
          end
        else m in
      (m, CmdNil)
    else if Qle_bool (Seconds (remainingTime m)) (inject_Z 0) then
      (set_closing true m, CmdTick)
    else
      (set_percent
         (1 - inject_Z (Milliseconds (remainingTime m))
              / inject_Z (Milliseconds (timerDuration m)))%Q m,
       CmdTick).

(** [case tea.WindowSizeMsg], lines 187 to 192. *)
Definition windowSize (Width : Z) (m : model) : model * Cmd :=
  let m := set_progress_Width (wrap64 (Width - padding * 2 - 4)) m in
  let m :=
    if progress_Width m >? maxWidth then set_progress_Width maxWidth m else m in
  (m, CmdNil).

(** [Update]: the widget sees every message first.  [now] is the reading of
    the clock, should the message make [Update] ask for it. *)
Definition Update (now : Time) (msg : Msg) (m : model) : model * Cmd :=
  let m := set_textarea (textarea_Update msg (textarea m)) m in
  match msg with
  | KeyMsg k => keyMsg now k m
  | WindowSizeMsg w _ => windowSize w m
  | tickMsg => tick now m
  | otherMsg => (m, CmdNil)
  end.

(** The messages of a run, each with the clock at its arrival. *)
Definition run (evs : list (Time * Msg)) (m : model) : model :=
  fold_left (fun s ev => fst (Update (fst ev) (snd ev) s)) evs m.

(** A run of ticks only. *)
Definition ticks (nows : list Time) (m : model) : model :=
  run (map (fun t => (t, tickMsg)) nows) m.

End Update.

(** ** [View] *)

(** What [View] hands to the renderer, before formatting. *)
Inductive Screen :=
| SessionsScreen (ss : list session) (different : bool) (d : Date)
| PromptScreen (text error : string)
| OpeningScreen (ty : string) (minutes : Q) (seconds : Z)
| ClosingScreen (ty : string)
| TimerScreen (ty : string) (remaining : time_Duration) (fraction : Q).

(** The conversion [int(_)] of a fraction: toward zero. *)
Definition int_of (q : Q) : Z := Z.quot (Qnum q) (Zpos (Qden q)).

Definition View (m : model) : Screen :=
  if showSession m
  then SessionsScreen (sessions m) (printDifferentDate m) (datePrint m)
  else if negb (inSession m) then PromptScreen (textarea m) (err m)
  else if opening m
  then OpeningScreen (sessionType m) (Minutes (timerDuration m))
         (int_of (Seconds (remainingTime m) - Seconds (timerDuration m)))
  else if closing m then ClosingScreen (sessionType m)
  else TimerScreen (sessionType m) (remainingTime m) (percent m).

(** ** The phases of the specification *)

Inductive Phase := Idle | Opening | Active | Closing.

(** [View] tells the phases apart in this order. *)
Definition phase (m : model) : Phase :=
  if negb (inSession m) then Idle
  else if opening m then Opening
  else if closing m then Closing
  else Active.

(** The six fields of the specification's timer state. *)
Definition timer (m : model) :=
  (phase m, sessionType m, timerDuration m, remainingTime m, startTime m,
   percent m).

(** ** A concrete setting

    An input line of at most 20 characters ([CharLimit]) that appends what
    is typed, drops its last character on backspace and ignores every other
    message (the new line is disabled); a store whose answer is given; the
    minute check of the specification. *)

Definition dropLast (s : string) : string :=
  substring 0 (String.length s - 1) s.

Definition typed (msg : Msg) (v : string) : string :=
  match msg with
  | KeyMsg (KeyRunes r) => v ++ substring 0 (20 - String.length v) r
  | KeyMsg KeyBackspace => dropLast v
  | _ => v
  end.

(** The minute check of the specification, with any input line and store. *)
Definition spec_desk (ta : Msg -> string -> string)
    (save : list session -> option string) : Externals :=
  {| textarea_Update := ta;
     saveSessions := save;
     checkValidMinute := checkValidMinute_spec |}.

Definition desk (save : list session -> option string) : Externals :=
  spec_desk typed save.

(** The store that always saves, and the one that never does. *)
Definition saves : list session -> option string := fun _ => None.
Definition fails (e : string) : list session -> option string := fun _ => Some e.

(** [initialModel()] with the sessions that [loadSessions()] found; a new
    progress bar is 40 cells wide. *)
Definition initialModel (loaded : list session) : model :=
  mkModel loaded 0%Q 40 "" 0 0 0 false false false false false zeroDate "" "".

(** Typing a line and pressing enter, every key at clock reading [now]. *)
Definition submit (line : string) (now : Time) : list (Time * Msg) :=
  [(now, KeyMsg (KeyRunes line)); (now, KeyMsg KeyEnter)].

(** The prompt with an empty log. *)
Definition prompt : model := initialModel [].

(** [n] ticks, all at clock reading [now]. *)
Definition seconds (n : nat) (now : Time) : list (Time * Msg) :=
  repeat (now, tickMsg) n.

(** A line typed at clock reading 2. *)
Definition typing (line : string) (m : model) : model :=
  @run (desk saves) [(2, KeyMsg (KeyRunes line))] m.

(** A work session of one minute: in its opening, active, and in the last
    second of its closing. *)
Definition work_opening : model := @run (desk saves) (submit "s 1" 0) prompt.
Definition work_active : model := @run (desk saves) (seconds 3 1) work_opening.
Definition work_closing : model := @run (desk saves) (seconds 63 1) work_active.

(** The events of a break of one minute up to the last second of its
    closing. *)
Definition break_events : list (Time * Msg) := submit "b 1" 0 ++ seconds 66 1.

(** ** Notions of the specification *)

(** *** Sessions *)

(** The minutes whose duration, with the three seconds before it, is a
    [time.Duration]. *)
Definition fits (n : Z) : Prop := 1 <= n <= 153722867.

(** The seconds of a session that fit likewise. *)
Definition representable (c : Z) : Prop :=
  1 <= c /\ (c + 3) * Second <= max_int64.

(** The fraction shown after [k] ticks of a session of [c] seconds. *)
Definition shown (c k : Z) : Q :=
  let j := Z.min k (c + 2) in
  if j <=? 3 then 0%Q
  else (1 - inject_Z (Milliseconds ((c + 3 - j) * Second)%Z)
            / inject_Z (Milliseconds (c * Second)%Z))%Q.

(** A session of [c] seconds, started as [s0], after [k] ticks. *)
Record running (s0 : model) (c k : Z) (m : model) : Prop := {
  run_sessions : sessions m = sessions s0;
  run_duration : timerDuration m = c * Second;
  run_remaining : remainingTime m = (c + 3 - k) * Second;
  run_start : startTime m = startTime s0;
  run_type : sessionType m = sessionType s0;
  run_in : inSession m = true;
  run_opening : opening m = (k <? 3);
  run_closing : closing m = (c + 3 <=? k);
  run_percent : percent m = shown c k
}.

(** Everything of the timer and the log but [inSession]. *)
Definition untouched (m m' : model) : Prop :=
  sessions m' = sessions m /\ percent m' = percent m
  /\ timerDuration m' = timerDuration m /\ remainingTime m' = remainingTime m
  /\ startTime m' = startTime m /\ sessionType m' = sessionType m
  /\ opening m' = opening m /\ closing m' = closing m.

(** *** Dates and numbers as the user writes them *)

(** The decimal digit of a value from 0 to 9. *)
Definition digitChar (n : Z) : ascii := ascii_of_nat (Z.to_nat (48 + n)).

Definition two_digits (n : Z) : string :=
  String (digitChar (n / 10)) (String (digitChar (n mod 10)) "").

Definition four_digits (n : Z) : string :=
  String (digitChar (n / 1000))
    (String (digitChar (n / 100 mod 10)) (two_digits (n mod 100))).

(** A date written as [YYYY-MM-DD]. *)
Definition iso (d : Date) : string :=
  four_digits (year d) ++ "-" ++ two_digits (month d) ++ "-" ++ two_digits (day d).

(** Leap years of the Gregorian calendar. *)
Definition leap (y : Z) : Prop :=
  (y mod 4 = 0 /\ y mod 100 <> 0) \/ y mod 400 = 0.

(** The days of a month in a common year. *)
Definition month_days (m : Z) : Z :=
  match m with
  | 1 => 31 | 2 => 28 | 3 => 31 | 4 => 30 | 5 => 31 | 6 => 30
  | 7 => 31 | 8 => 31 | 9 => 30 | 10 => 31 | 11 => 30 | 12 => 31
  | _ => 0
  end.

(** A day of the calendar, in a year of four digits: February has a 29th
    day in leap years. *)
Definition calendar (d : Date) : Prop :=
  0 <= year d <= 9999 /\ 1 <= month d <= 12 /\ 1 <= day d
  /\ (day d <= month_days (month d)
      \/ (month d = 2 /\ day d = 29 /\ leap (year d))).

(** [s] is the ISO notation of the calendar date [d]. *)
Definition iso_date (s : string) (d : Date) : Prop := calendar d /\ s = iso d.

(** [s] is a decimal numeral of [n]: one digit, or a numeral followed by
    one more digit. *)
Inductive numeral : string -> Z -> Prop :=
| numeral_digit (c : ascii) :
    isDigit c = true -> numeral (String c "") (digit c)
| numeral_more (s : string) (n : Z) (c : ascii) :
    numeral s n -> isDigit c = true ->
    numeral (s ++ String c "") (10 * n + digit c).

(** *** Outcomes of a command *)

(** A list command that was turned down: a reason is shown and no list. *)
Definition rejected (m m' : model) : Prop :=
  (err m' = "Invalid command" \/ err m' = "Invalid date format")
  /\ showSession m' = showSession m
  /\ printDifferentDate m' = printDifferentDate m
  /\ datePrint m' = datePrint m.

(** A session of [n] minutes has just been started. *)
Definition started (ty : string) (n : Z) (now : Time) (r : model * Cmd) : Prop :=
  snd r = CmdTick /\ phase (fst r) = Opening /\ sessionType (fst r) = ty
  /\ timerDuration (fst r) = n * Minute
  /\ remainingTime (fst r) = n * Minute + 3 * Second
  /\ startTime (fst r) = now /\ percent (fst r) = 0%Q.

(** ** Measures of a run *)

(** The ticks among the messages of a run. *)
Definition isTick (ev : Time * Msg) : bool :=
  match snd ev with tickMsg => true | _ => false end.

Definition tickCount (evs : list (Time * Msg)) : nat :=
  List.length (filter isTick evs).

(** What the end of a session of type [ty] adds to the log. *)
Definition logged (ty : string) (s : session) : list session :=
  if String.eqb ty workSession then [s] else [].

(** The flags of the four phases. *)
Definition flags (m : model) : bool * bool * bool :=
  (inSession m, opening m, closing m).

Definition phase_flags (f : bool * bool * bool) : Prop :=
  f = (false, false, false) \/ f = (true, true, false)
  \/ f = (true, false, false) \/ f = (true, false, true).

(** One minute of work, active, with the list view opened over it. *)
Definition listed_active : model :=
  @run (desk saves) [(3, KeyMsg KeyEnter)] (typing "l" work_active).

(** The prompt after a line that is no command. *)
Definition mistyped : model :=
  @run (desk saves) [(3, KeyMsg KeyEnter)] (typing "zzz" prompt).

(** * Properties *)

(** ** Arithmetic of durations *)

Lemma wrap64_small (z : Z) : min_int64 <= z <= max_int64 -> wrap64 z = z.
Proof.
  unfold min_int64, max_int64, wrap64. intros H.
  rewrite Z.mod_small by lia. lia.
Qed.

Lemma Seconds_le (d k : Z) :
  Qle_bool (Seconds d) (inject_Z k) = (d <=? k * Second).
Proof.
  apply eq_true_iff_eq. rewrite Qle_bool_iff, Z.leb_le.
  unfold Seconds, Qle, Qplus, Qdiv, Qmult, Qinv, inject_Z, Second, Millisecond.
  cbn [Qnum Qden].
  pose proof (Z.quot_rem' d 1000000000) as Hd.
  change (1000 * 1000000) with 1000000000.
  cbn. lia.
Qed.

Lemma Milliseconds_Second (c : Z) : Milliseconds (c * Second) = c * 1000.
Proof.
  unfold Milliseconds, Second.
  replace (c * (1000 * Millisecond)) with (c * 1000 * Millisecond) by ring.
  apply Z.quot_mul. discriminate.
Qed.

(** ** Runs of ticks *)

(** Projections of updated models. *)
Ltac fields :=
  cbn [sessions percent progress_Width textarea timerDuration remainingTime
       startTime inSession opening closing showSession printDifferentDate
       datePrint sessionType err
       set_sessions set_percent set_progress_Width set_textarea
       set_timerDuration set_remainingTime set_startTime set_inSession
       set_opening set_closing set_showSession set_printDifferentDate
       set_datePrint set_sessionType set_err textarea_Reset fst snd negb] in *.

(** Case analysis on the integer comparisons of the goal. *)
Ltac zbool :=
  repeat match goal with
    | |- context [?a <=? ?b] => destruct (Z.leb_spec a b)
    | |- context [?a <? ?b] => destruct (Z.ltb_spec a b)
    end;
  try reflexivity; try lia.

Section Runs.
Context {E : Externals}.

Lemma run_app (evs1 evs2 : list (Time * Msg)) (m : model) :
  run (evs1 ++ evs2) m = run evs2 (run evs1 m).
Proof. unfold run. apply fold_left_app. Qed.

Lemma ticks_snoc (nows : list Time) (t : Time) (m : model) :
  ticks (nows ++ [t]) m = fst (Update t tickMsg (ticks nows m)).
Proof. unfold ticks. rewrite map_app, run_app. reflexivity. Qed.

Lemma running_tick (s0 : model) (c k : Z) (m : model) (now : Time) :
  representable c -> 0 <= k < c + 6 -> running s0 c k m ->
  running s0 c (k + 1) (fst (Update now tickMsg m))
  /\ snd (Update now tickMsg m) = CmdTick.
Proof.
  intros [Hc Hmax] Hk [Hs Hd Hr Hst Hty Hin Hop Hcl Hp].
  unfold Update, tick. fields.
  rewrite Hin. fields. rewrite Hr, Hop, Hd.
  replace ((c + 3 - k) * Second - 1 * Second)
    with ((c + 3 - (k + 1)) * Second) by ring.
  assert (HS : Second = 1000000000) by reflexivity.
  rewrite wrap64_small
    by (unfold min_int64, max_int64 in *; rewrite HS in *; lia).
  rewrite !Milliseconds_Second, !Seconds_le. rewrite HS.
  destruct (Z.ltb_spec k 3).
  - destruct (Z.leb_spec ((c + 3 - (k + 1)) * 1000) (c * 1000)).
    + split; [|reflexivity].
      constructor; fields; try assumption; try reflexivity;
        rewrite ?Hop, ?Hcl, ?Hp; unfold shown; cbv zeta; zbool.
    + split; [|reflexivity].
      constructor; fields; try assumption; try reflexivity;
        rewrite ?Hop, ?Hcl, ?Hp; unfold shown; cbv zeta; zbool.
  - destruct (Z.leb_spec ((c + 3 - (k + 1)) * 1000000000) (-4 * 1000000000)); [lia|].
    destruct (Z.leb_spec ((c + 3 - (k + 1)) * 1000000000) (0 * 1000000000)).
    + split; [|reflexivity].
      constructor; fields; try assumption; try reflexivity;
        rewrite ?Hop, ?Hcl, ?Hp; unfold shown; cbv zeta; zbool.
      rewrite !Z.min_r by lia. reflexivity.
    + split; [|reflexivity].
      constructor; fields; try assumption; try reflexivity;
        rewrite ?Hop, ?Hcl, ?Hp, ?Hd; unfold shown; cbv zeta; zbool.
      rewrite Z.min_l by lia. rewrite !Milliseconds_Second. reflexivity.
Qed.

Lemma running_last (s0 : model) (c : Z) (m : model) (now : Time) :
  representable c -> running s0 c (c + 6) m ->
  let m' := fst (Update now tickMsg m) in
  let done := (sessions s0 ++ [mkSession (startTime s0) now (c * Second)])%list in
  snd (Update now tickMsg m) = CmdNil
  /\ inSession m' = false /\ opening m' = false /\ closing m' = false
  /\ remainingTime m' = -4 * Second /\ timerDuration m' = c * Second
  /\ percent m' = shown c (c + 6)
  /\ sessions m'
     = (if String.eqb (sessionType s0) workSession then done else sessions s0)
  /\ err m' = (if String.eqb (sessionType s0) workSession
               then match saveSessions done with Some e => e | None => err m end
               else err m).
Proof.
  intros [Hc Hmax] [Hs Hd Hr Hst Hty Hin Hop Hcl Hp].
  assert (Hop' : opening m = false) by (rewrite Hop; apply Z.ltb_ge; lia).
  unfold Update, tick. fields.
  rewrite Hin. fields. rewrite Hr, Hop', Hd, Hty, Hs, Hst.
  replace ((c + 3 - (c + 6)) * Second - 1 * Second) with (-4 * Second) by ring.
  rewrite wrap64_small by (unfold min_int64, max_int64; cbn; lia).
  rewrite Seconds_le, Z.leb_refl.
  destruct (String.eqb (sessionType s0) workSession); fields.
  - destruct (saveSessions _); fields; repeat split; try assumption; try reflexivity.
  - repeat split; try assumption; try reflexivity.
Qed.

Lemma idle_tick (now : Time) (m : model) :
  inSession m = false ->
  inSession (fst (Update now tickMsg m)) = false
  /\ sessions (fst (Update now tickMsg m)) = sessions m.
Proof.
  intros H. unfold Update, tick. fields. rewrite H. fields. auto.
Qed.

Lemma idle_ticks (nows : list Time) (m : model) :
  inSession m = false ->
  inSession (ticks nows m) = false /\ sessions (ticks nows m) = sessions m.
Proof.
  induction nows as [|t nows IH] using rev_ind; intros H.
  - auto.
  - rewrite ticks_snoc. destruct (IH H) as [H1 H2].
    destruct (idle_tick t _ H1) as [H3 H4]. split; congruence.
Qed.

Lemma running_ticks (s0 : model) (c : Z) (nows : list Time) :
  representable c -> running s0 c 0 s0 ->
  Z.of_nat (List.length nows) <= c + 6 ->
  running s0 c (Z.of_nat (List.length nows)) (ticks nows s0).
Proof.
  intros Hc H0.
  induction nows as [|t nows IH] using rev_ind; intros Hlen.
  - exact H0.
  - rewrite length_app, Nat2Z.inj_add in *.
    cbn [List.length Z.of_nat Pos.of_succ_nat] in *.
    rewrite ticks_snoc.
    apply running_tick; [assumption | lia | apply IH; lia].
Qed.

Lemma fits_representable (n : Z) : fits n -> representable (60 * n).
Proof.
  intros [H1 H2]. split; [lia|].
  change Second with 1000000000. change max_int64 with 9223372036854775807. lia.
Qed.

Lemma start_running (ty : string) (n : Z) (now : Time) (m0 : model) :
  fits n ->
  running (start ty n now m0) (60 * n) 0 (start ty n now m0).
Proof.
  intros Hn. pose proof (fits_representable n Hn) as [Hc Hmax].
  assert (HS : Second = 1000000000) by reflexivity.
  assert (Hd : wrap64 (n * Minute) = 60 * n * Second).
  { rewrite wrap64_small; [unfold Minute; ring|].
    unfold min_int64, max_int64, Minute in *. rewrite HS in *. lia. }
  unfold start. constructor; fields; try reflexivity; try assumption.
  - rewrite Hd.
    replace (60 * n * Second + 3 * Second) with ((60 * n + 3 - 0) * Second) by ring.
    apply wrap64_small. unfold min_int64, max_int64 in *. rewrite HS in *. lia.
  - symmetry. apply Z.leb_gt. lia.
  - unfold shown. cbv zeta. rewrite Z.min_l by lia. reflexivity.
Qed.

End Runs.

(** ** Keys *)

Ltac ifs :=
  repeat match goal with
    | |- context [if ?b then _ else _] => destruct b eqn:?
    | |- context [match ?b with Some _ => _ | None => _ end] => destruct b eqn:?
    end.

Section Keys.
Context {E : Externals}.

Lemma phase_Idle (m : model) : phase m = Idle <-> inSession m = false.
Proof.
  unfold phase. destruct (inSession m), (opening m), (closing m); cbn;
    split; congruence.
Qed.

Lemma phase_Active (m : model) :
  phase m = Active <-> inSession m = true /\ opening m = false /\ closing m = false.
Proof.
  unfold phase. destruct (inSession m), (opening m), (closing m); cbn;
    split; try congruence; intuition congruence.
Qed.

Lemma phase_pre_post (m : model) :
  phase m = Opening \/ phase m = Closing <->
  inSession m = true /\ (opening m || closing m) = true.
Proof.
  unfold phase. destruct (inSession m), (opening m), (closing m); cbn;
    split; try congruence; intuition congruence.
Qed.

Lemma timer_untouched (m m' : model) :
  untouched m m' -> inSession m' = inSession m -> timer m' = timer m.
Proof.
  intros (_ & Hp & Hd & Hr & Hs & Ht & Ho & Hc) Hi.
  unfold timer, phase. rewrite Hp, Hd, Hr, Hs, Ht, Ho, Hc, Hi. reflexivity.
Qed.

Lemma untouched_refl (m : model) : untouched m m.
Proof. unfold untouched. auto 12. Qed.

Lemma untouched_trans (m1 m2 m3 : model) :
  untouched m1 m2 -> untouched m2 m3 -> untouched m1 m3.
Proof.
  unfold untouched. intros (?&?&?&?&?&?&?&?) (?&?&?&?&?&?&?&?).
  repeat split; congruence.
Qed.

Lemma untouched_textarea (v : string) (m : model) : untouched m (set_textarea v m).
Proof. unfold untouched. fields. auto 12. Qed.

Lemma untouched_err (v : string) (m : model) : untouched m (set_err v m).
Proof. unfold untouched. fields. auto 12. Qed.

Lemma untouched_inSession (v : bool) (m : model) : untouched m (set_inSession v m).
Proof. unfold untouched. fields. auto 12. Qed.

Lemma untouched_showSession (v : bool) (m : model) : untouched m (set_showSession v m).
Proof. unfold untouched. fields. auto 12. Qed.

Lemma untouched_printDifferentDate (v : bool) (m : model) :
  untouched m (set_printDifferentDate v m).
Proof. unfold untouched. fields. auto 12. Qed.

Lemma untouched_datePrint (v : Date) (m : model) : untouched m (set_datePrint v m).
Proof. unfold untouched. fields. auto 12. Qed.

(** While a session opens or closes, a key only reaches the input line. *)
Lemma key_ignored (now : Time) (k : Key) (m : model) :
  phase m = Opening \/ phase m = Closing ->
  Update now (KeyMsg k) m
  = (set_textarea (textarea_Update (KeyMsg k) (textarea m)) m, CmdNil).
Proof.
  intros H. apply phase_pre_post in H. destruct H as [Hi Hoc].
  unfold Update, keyMsg. fields. rewrite Hi, Hoc. reflexivity.
Qed.

Lemma startCommand_in_session (ty : string) (dflt : Z) (line : string)
    (now : Time) (m : model) :
  inSession m = true ->
  untouched m (fst (startCommand ty dflt line now m))
  /\ inSession (fst (startCommand ty dflt line now m)) = true
  /\ snd (startCommand ty dflt line now m) = CmdNil.
Proof.
  intros Hi. unfold startCommand, untouched.
  destruct (reason (checkValidMinute line)); fields; rewrite Hi; fields;
    destruct (ok (checkValidMinute line)); fields; auto 12.
Qed.

Lemma listCommand_untouched (line : string) (m : model) :
  untouched m (fst (listCommand line m))
  /\ inSession (fst (listCommand line m)) = inSession m
  /\ snd (listCommand line m) = CmdNil.
Proof.
  unfold listCommand, untouched. ifs; fields; auto 12.
Qed.

Lemma enter_in_session (now : Time) (m : model) :
  inSession m = true ->
  untouched m (fst (enter now m))
  /\ inSession (fst (enter now m)) = true
  /\ snd (enter now m) <> CmdTick.
Proof.
  intros Hi. unfold enter.
  set (line := textarea m). set (m1 := textarea_Reset m).
  assert (Hu1 : untouched m m1) by apply untouched_textarea.
  assert (Hi1 : inSession m1 = true) by exact Hi.
  destruct (String.eqb line "q").
  { cbn [fst snd]. split; [exact Hu1 | split; [exact Hi1 | discriminate]]. }
  destruct (HasPrefix line "s").
  { destruct (startCommand_in_session workSession 25 line now m1 Hi1) as (?&?&Hc1).
    rewrite Hc1. split; [|split; [assumption | discriminate]].
    eapply untouched_trans; [exact Hu1 | eassumption]. }
  destruct (HasPrefix line "b").
  { destruct (startCommand_in_session breakSession 5 line now m1 Hi1) as (?&?&Hc1).
    rewrite Hc1. split; [|split; [assumption | discriminate]].
    eapply untouched_trans; [exact Hu1 | eassumption]. }
  destruct (HasPrefix line "l").
  { destruct (listCommand_untouched line m1) as (?&?&Hc1).
    rewrite Hc1. split; [|split; [congruence | discriminate]].
    eapply untouched_trans; [exact Hu1 | eassumption]. }
  cbn [fst snd]. split; [|split; [exact Hi1 | discriminate]].
  eapply untouched_trans; [exact Hu1 | apply untouched_err].
Qed.

(** A key pressed during a session changes nothing of the timer and the
    log, except that the stop key ends an active session. *)
Lemma key_in_session (now : Time) (k : Key) (m : model) :
  inSession m = true ->
  let r := Update now (KeyMsg k) m in
  untouched m (fst r) /\ snd r <> CmdTick
  /\ (inSession (fst r) = true
      \/ (inSession (fst r) = false /\ Matches k Stop = true /\ phase m = Active)).
Proof.
  intros Hi. cbv zeta.
  destruct (phase m) eqn:Hph.
  - apply phase_Idle in Hph. congruence.
  - rewrite key_ignored by auto. fields.
    repeat split; auto using untouched_textarea; discriminate.
  - pose proof (proj1 (phase_Active m) Hph) as (_ & Ho & Hc).
    unfold Update, keyMsg.
    set (m0 := set_textarea _ m).
    assert (Hu0 : untouched m m0) by apply untouched_textarea.
    change (inSession m0) with (inSession m).
    change (opening m0) with (opening m). change (closing m0) with (closing m).
    rewrite Hi, Ho, Hc. cbn [orb andb].
    destruct (Matches k Stop) eqn:Hs.
    + cbn [fst snd]. split; [|split; [discriminate|right; auto]].
      eapply untouched_trans; [|apply untouched_textarea].
      eapply untouched_trans; [exact Hu0 | apply untouched_inSession].
    + destruct (Matches k Quit).
      { cbn [fst snd]. repeat split; auto; try apply Hu0; discriminate. }
      rewrite andb_false_r.
      assert (Hu1 : untouched m (set_err "" m0))
        by (eapply untouched_trans; [exact Hu0 | apply untouched_err]).
      destruct (_ || _).
      { cbn [fst snd]. split; [exact Hu1 | split; [discriminate | auto]]. }
      destruct (key_Type k =? 113).
      { cbn [fst snd]. split; [exact Hu1 | split; [discriminate | auto]]. }
      destruct (key_Type k =? key_Type KeyEnter).
      2:{ cbn [fst snd]. split; [exact Hu1 | split; [discriminate | auto]]. }
      destruct (enter_in_session now (set_err "" m0) Hi) as (H1 & H2 & H3).
      split; [eapply untouched_trans; [exact Hu1 | exact H1] | auto].
  - rewrite key_ignored by auto. fields.
    repeat split; auto using untouched_textarea; discriminate.
Qed.
End Keys.

(** ** The log and the fraction *)

Section Log.
Context {E : Externals}.

Lemma key_sessions (now : Time) (k : Key) (m : model) :
  sessions (fst (Update now (KeyMsg k) m)) = sessions m.
Proof.
  destruct (inSession m) eqn:Hi.
  - apply (key_in_session now k m Hi).
  - unfold Update, keyMsg, enter, startCommand, listCommand, start.
    fields. rewrite Hi. cbn [andb negb].
    ifs; fields; reflexivity.
Qed.

(** What one message does to the log: nothing, or the tick that ends a
    work session appends that session. *)
Lemma step_log (now : Time) (msg : Msg) (m : model) :
  let m' := fst (Update now msg m) in
  sessions m' = sessions m
  \/ (msg = tickMsg /\ sessionType m = workSession /\ inSession m = true
      /\ opening m = false /\ inSession m' = false
      /\ sessions m'
         = (sessions m ++ [mkSession (startTime m) now (timerDuration m)])%list).
Proof.
  destruct msg as [k|w h| |]; cbv zeta.
  - left. apply key_sessions.
  - left. unfold Update, windowSize. fields. ifs; reflexivity.
  - unfold Update, tick. fields.
    destruct (inSession m) eqn:Hi; [|left; reflexivity]. fields.
    destruct (opening m) eqn:Ho; [left; ifs; reflexivity|].
    destruct (Qle_bool _ _); [|left; ifs; reflexivity].
    fields.
    destruct (String.eqb (sessionType m) workSession) eqn:Hw; [|left; reflexivity].
    apply String.eqb_eq in Hw. right.
    destruct (saveSessions _); fields; auto 10.
  - left. reflexivity.
Qed.

Lemma run_sessions_grow (evs : list (Time * Msg)) (m : model) :
  exists rest, sessions (run evs m) = (sessions m ++ rest)%list.
Proof.
  induction evs as [|ev evs IH] using rev_ind.
  - exists []. cbn. now rewrite app_nil_r.
  - rewrite run_app. cbn [run fold_left]. destruct IH as [rest IH].
    destruct (step_log (fst ev) (snd ev) (run evs m)) as [H|(_&_&_&_&_&H)];
      cbv zeta in H; rewrite H, IH.
    + exists rest. reflexivity.
    + eexists. rewrite <- app_assoc. reflexivity.
Qed.

Lemma ticks_app (l1 l2 : list Time) (m : model) :
  ticks (l1 ++ l2) m = ticks l2 (ticks l1 m).
Proof. unfold ticks. rewrite map_app. apply run_app. Qed.

(** A session of [c] seconds is over after [c + 7] ticks. *)
Lemma running_over (s0 : model) (c : Z) (nows : list Time) :
  representable c -> running s0 c 0 s0 ->
  c + 7 <= Z.of_nat (List.length nows) ->
  inSession (ticks nows s0) = false.
Proof.
  intros Hc H0 Hlen.
  rewrite <- (firstn_skipn (Z.to_nat (c + 6)) nows).
  assert (Hl1 : Z.of_nat (List.length (firstn (Z.to_nat (c + 6)) nows)) = c + 6).
  { rewrite length_firstn. destruct Hc. lia. }
  destruct (skipn (Z.to_nat (c + 6)) nows) as [|t l2] eqn:Hsk.
  - apply (f_equal (@List.length Time)) in Hsk. rewrite length_skipn in Hsk.
    cbn in Hsk. destruct Hc. lia.
  - change (t :: l2) with ([t] ++ l2)%list. rewrite app_assoc, ticks_app.
    apply idle_ticks. rewrite ticks_snoc.
    apply (running_last s0 c _ t Hc).
    pose proof (running_ticks s0 c (firstn (Z.to_nat (c + 6)) nows) Hc H0) as H.
    rewrite Hl1 in H. apply H. lia.
Qed.

(** The phase after any number of ticks. *)
Lemma running_phase (s0 : model) (c k : Z) (m : model) :
  running s0 c k m ->
  phase m = if k <? 3 then Opening else if c + 3 <=? k then Closing else Active.
Proof.
  intros [_ _ _ _ _ Hi Ho Hc _]. unfold phase. rewrite Hi, Ho, Hc.
  cbn [negb]. reflexivity.
Qed.

Lemma fraction_le (a a' b : Z) :
  0 < b -> a' <= a ->
  (1 - inject_Z a / inject_Z b <= 1 - inject_Z a' / inject_Z b)%Q.
Proof.
  intros Hb Ha. destruct b as [|b|b]; try lia.
  unfold Qle, Qminus, Qplus, Qopp, Qdiv, Qmult, Qinv, inject_Z. cbn [Qnum Qden].
  rewrite ?Pos2Z.inj_mul. nia.
Qed.
Lemma fraction_nonneg (a b : Z) :
  0 < b -> a <= b -> (0 <= 1 - inject_Z a / inject_Z b)%Q.
Proof.
  intros Hb Ha. destruct b as [|b|b]; try lia.
  unfold Qle, Qminus, Qplus, Qopp, Qdiv, Qmult, Qinv, inject_Z. cbn [Qnum Qden].
  rewrite ?Pos2Z.inj_mul. nia.
Qed.
Lemma fraction_lt_1 (a b : Z) :
  0 < b -> 0 < a -> (1 - inject_Z a / inject_Z b < 1)%Q.
Proof.
  intros Hb Ha. destruct b as [|b|b]; try lia.
  unfold Qlt, Qminus, Qplus, Qopp, Qdiv, Qmult, Qinv, inject_Z. cbn [Qnum Qden].
  rewrite ?Pos2Z.inj_mul. nia.
Qed.

Lemma shown_mono (c k : Z) :
  1 <= c -> 3 <= k -> k + 1 < c + 3 -> (shown c k <= shown c (k + 1))%Q.
Proof.
  intros Hc Hk Hk'. unfold shown. cbv zeta.
  rewrite !Z.min_l by lia. rewrite !Milliseconds_Second.
  destruct (Z.leb_spec k 3), (Z.leb_spec (k + 1) 3); try lia.
  - apply fraction_nonneg; lia.
  - apply fraction_le; lia.
Qed.

Lemma shown_end (c k : Z) :
  2 <= c -> c + 2 <= k ->
  shown c k = (1 - inject_Z (Milliseconds (1 * Second)%Z)
                   / inject_Z (Milliseconds (c * Second)%Z))%Q.
Proof.
  intros Hc Hk. unfold shown. cbv zeta. rewrite Z.min_r by lia.
  destruct (Z.leb_spec (c + 2) 3); [lia|].
  replace (c + 3 - (c + 2)) with 1 by lia. reflexivity.
Qed.
Lemma break_run_to_completion (n : Z) (now0 : Time) (m0 : model)
    (nows : list Time) :
  fits n -> Z.of_nat (List.length nows) = 60 * n + 7 ->
  phase (ticks nows (start breakSession n now0 m0)) = Idle
  /\ sessions (ticks nows (start breakSession n now0 m0)) = sessions m0.
Proof.
  intros Hf Hk.
  pose proof (fits_representable n Hf) as Hc.
  pose proof (start_running breakSession n now0 m0 Hf) as H0.
  split.
  - apply phase_Idle. apply (running_over _ (60 * n)); auto. lia.
  - destruct nows as [|t0 rest] using rev_ind;
      [cbn [List.length Z.of_nat] in Hk; destruct Hf; lia|].
    clear IHrest.
    rewrite length_app, Nat2Z.inj_add in Hk.
    cbn [List.length Z.of_nat Pos.of_succ_nat] in Hk.
    rewrite ticks_snoc.
    pose proof (running_ticks _ (60 * n) rest Hc H0 ltac:(lia)) as Hr.
    replace (Z.of_nat (List.length rest)) with (60 * n + 6) in Hr by lia.
    destruct (running_last _ (60 * n) _ t0 Hc Hr) as (_&_&_&_&_&_&_&Hs&_).
    rewrite Hs. reflexivity.
Qed.

Lemma completion_tick (now : Time) (m : model) :
  inSession m = true -> opening m = false ->
  wrap64 (remainingTime m - 1 * Second) <= -4 * Second ->
  sessionType m = workSession ->
  let done := (sessions m ++ [mkSession (startTime m) now (timerDuration m)])%list in
  let r := Update now tickMsg m in
  snd r = CmdNil /\ phase (fst r) = Idle /\ sessions (fst r) = done
  /\ showSession (fst r) = showSession m
  /\ err (fst r) = match saveSessions done with Some e => e | None => err m end.
Proof.
  intros Hi Ho Hr Hw. cbv zeta.
  unfold Update, tick. fields. rewrite Hi, Ho. fields.
  rewrite Seconds_le. apply Z.leb_le in Hr. rewrite Hr. fields.
  rewrite Hw. cbn [String.eqb workSession Ascii.eqb Bool.eqb andb].
  destruct (saveSessions _); fields; repeat split.
Qed.

End Log.

(** ** Dates *)

Lemma isDigit_range (c : ascii) : isDigit c = true -> 0 <= digit c <= 9.
Proof.
  unfold isDigit, digit. intros H. apply andb_true_iff in H.
  rewrite !Z.leb_le in H. lia.
Qed.

Lemma digitChar_digit (c : ascii) : isDigit c = true -> digitChar (digit c) = c.
Proof.
  intros H. pose proof (isDigit_range c H) as Hr.
  unfold digitChar, digit, code in *.
  replace (48 + (Z.of_nat (nat_of_ascii c) - 48))
    with (Z.of_nat (nat_of_ascii c)) by lia.
  rewrite Nat2Z.id. apply ascii_nat_embedding.
Qed.

Lemma digit_digitChar (v : Z) :
  0 <= v <= 9 -> isDigit (digitChar v) = true /\ digit (digitChar v) = v.
Proof.
  intros H.
  assert (Hv : v = 0 \/ v = 1 \/ v = 2 \/ v = 3 \/ v = 4 \/ v = 5 \/ v = 6
               \/ v = 7 \/ v = 8 \/ v = 9) by lia.
  repeat (destruct Hv as [->|Hv]; [split; reflexivity|]). subst. split; reflexivity.
Qed.

Lemma isLeap_leap (y : Z) : isLeap y = true <-> leap y.
Proof.
  unfold isLeap, leap.
  rewrite andb_true_iff, orb_true_iff, negb_true_iff, !Z.eqb_eq, Z.eqb_neq.
  split; intros H; Z.div_mod_to_equations; lia.
Qed.

Lemma daysIn_calendar (y m d : Z) :
  1 <= m <= 12 ->
  d <= daysIn m y <->
  (d <= month_days m \/ (m = 2 /\ d = 29 /\ leap y)).
Proof.
  intros Hm.
  assert (H : m = 1 \/ m = 2 \/ m = 3 \/ m = 4 \/ m = 5 \/ m = 6 \/ m = 7
              \/ m = 8 \/ m = 9 \/ m = 10 \/ m = 11 \/ m = 12) by lia.
  unfold daysIn.
  pose proof (isLeap_leap y) as Hl.
  repeat (destruct H as [->|H]); subst; cbn - [isLeap];
    try (split; [intros; left; assumption | intros [?|(?&_)]; [assumption|lia]]).
  destruct (isLeap y).
  - split; [intros Hd|intros [?|(_&?&_)]; lia].
    destruct (Z.eq_dec d 29); [right; intuition | left; lia].
  - split; [intros; left; assumption|].
    intros [?|(_&_&Hy)]; [assumption|]. apply Hl in Hy. discriminate.
Qed.

Lemma Parse_DateOnly_iso (s : string) (d : Date) :
  Parse_DateOnly s = Some d <-> iso_date s d.
Proof.
  split.
  - unfold Parse_DateOnly.
    destruct s as [|y1 [|y2 [|y3 [|y4 [|s1 [|m1 [|m2 [|s2 [|d1 [|d2 [|? ?]]]]]]]]]]];
      try discriminate.
    destruct (forallb isDigit _ && _ && _) eqn:Hd; [|discriminate].
    apply andb_true_iff in Hd. destruct Hd as [Hd Hs2].
    apply andb_true_iff in Hd. destruct Hd as [Hd Hs1].
    apply Ascii.eqb_eq in Hs1, Hs2. subst s1 s2.
    cbn [forallb] in Hd. rewrite !andb_true_iff in Hd.
    destruct Hd as (Hy1 & Hy2 & Hy3 & Hy4 & Hm1 & Hm2 & Hd1 & Hd2 & _).
    pose proof (isDigit_range _ Hy1). pose proof (isDigit_range _ Hy2).
    pose proof (isDigit_range _ Hy3). pose proof (isDigit_range _ Hy4).
    pose proof (isDigit_range _ Hm1). pose proof (isDigit_range _ Hm2).
    pose proof (isDigit_range _ Hd1). pose proof (isDigit_range _ Hd2).
    destruct (_ && _ && _ && _) eqn:Hr; [|discriminate].
    rewrite !andb_true_iff, !Z.leb_le in Hr.
    destruct Hr as (((Hr1 & Hr2) & Hr3) & Hr4).
    intros Heq.
    apply (f_equal (fun o => match o with Some x => x | None => zeroDate end)) in Heq.
    cbv beta iota zeta in Heq. subst d. split.
    + unfold calendar. unfold year, month, day.
      apply daysIn_calendar in Hr4; [|lia].
      split; [lia|]. split; [lia|]. split; [lia|]. exact Hr4.
    + unfold iso, four_digits, two_digits. unfold year, month, day.
      rewrite <- (digitChar_digit y1 Hy1) at 1.
      rewrite <- (digitChar_digit y2 Hy2) at 1.
      rewrite <- (digitChar_digit y3 Hy3) at 1.
      rewrite <- (digitChar_digit y4 Hy4) at 1.
      rewrite <- (digitChar_digit m1 Hm1) at 1.
      rewrite <- (digitChar_digit m2 Hm2) at 1.
      rewrite <- (digitChar_digit d1 Hd1) at 1.
      rewrite <- (digitChar_digit d2 Hd2) at 1.
      cbn [String.append]. unfold dash.
      repeat (f_equal; try (Z.div_mod_to_equations; lia)).
  - intros [(Hy & Hm & Hd1 & Hd2) ->]. destruct d as [y m d].
    cbn [year month day] in *.
    unfold iso, four_digits, two_digits. cbn [year month day String.append].
    unfold Parse_DateOnly. cbn [forallb].
    assert (R : forall v, 0 <= v <= 9 ->
                isDigit (digitChar v) = true /\ digit (digitChar v) = v)
      by apply digit_digitChar.
    destruct (R (y / 1000)) as [-> ->]; [Z.div_mod_to_equations; lia|].
    destruct (R (y / 100 mod 10)) as [-> ->]; [Z.div_mod_to_equations; lia|].
    destruct (R (y mod 100 / 10)) as [-> ->]; [Z.div_mod_to_equations; lia|].
    destruct (R (y mod 100 mod 10)) as [-> ->]; [Z.div_mod_to_equations; lia|].
    destruct (R (m / 10)) as [-> ->]; [Z.div_mod_to_equations; lia|].
    destruct (R (m mod 10)) as [-> ->]; [Z.div_mod_to_equations; lia|].
    assert (Hd31 : d <= 31).
    { destruct Hd2 as [Hd2|(_&->&_)]; [|lia].
      assert (H : m = 1 \/ m = 2 \/ m = 3 \/ m = 4 \/ m = 5 \/ m = 6 \/ m = 7
                  \/ m = 8 \/ m = 9 \/ m = 10 \/ m = 11 \/ m = 12) by lia.
      repeat (destruct H as [->|H]); subst; cbn in Hd2; lia. }
    destruct (R (d / 10)) as [-> ->]; [Z.div_mod_to_equations; lia|].
    destruct (R (d mod 10)) as [-> ->]; [Z.div_mod_to_equations; lia|].
    cbn [andb]. change (Ascii.eqb "-" dash) with true. cbn [andb].
    replace (1000 * (y / 1000) + 100 * (y / 100 mod 10) + 10 * (y mod 100 / 10)
             + y mod 100 mod 10) with y by (Z.div_mod_to_equations; lia).
    replace (10 * (m / 10) + m mod 10) with m by (Z.div_mod_to_equations; lia).
    replace (10 * (d / 10) + d mod 10) with d by (Z.div_mod_to_equations; lia).
    apply (daysIn_calendar y m d Hm) in Hd2.
    replace (1 <=? m) with true by (symmetry; apply Z.leb_le; lia).
    replace (m <=? 12) with true by (symmetry; apply Z.leb_le; lia).
    replace (1 <=? d) with true by (symmetry; apply Z.leb_le; lia).
    replace (d <=? daysIn m y) with true by (symmetry; apply Z.leb_le; lia).
    reflexivity.
Qed.

(** ** Numerals and white space *)

Lemma append_nil_r (s : string) : s ++ "" = s.
Proof. induction s as [|a s IH]; cbn; [reflexivity | now rewrite IH]. Qed.

Lemma append_assoc (s1 s2 s3 : string) : (s1 ++ s2) ++ s3 = s1 ++ (s2 ++ s3).
Proof. induction s1 as [|a s1 IH]; cbn; [reflexivity | now rewrite IH]. Qed.

Lemma decimal_snoc (s : string) (acc : Z) (c : ascii) :
  decimal acc (s ++ String c "")
  = match decimal acc s with
    | Some v => if isDigit c then Some (10 * v + digit c) else None
    | None => None
    end.
Proof.
  revert acc. induction s as [|a s IH]; intros acc; cbn [String.append decimal].
  - destruct (isDigit c); reflexivity.
  - destruct (isDigit a); [apply IH | reflexivity].
Qed.

Lemma numeral_nonempty (s : string) (n : Z) : numeral s n -> s <> "".
Proof.
  intros H. destruct H as [c _|s n c _ _]; [discriminate|].
  destruct s; discriminate.
Qed.

Lemma decimal_numeral (s pre : string) (acc n : Z) :
  numeral pre acc \/ (pre = "" /\ acc = 0) ->
  decimal acc s = Some n -> pre ++ s <> "" -> numeral (pre ++ s) n.
Proof.
  revert pre acc. induction s as [|c r IH]; intros pre acc Hpre Hd Hne.
  - cbn in Hd. injection Hd as <-. rewrite append_nil_r in *.
    destruct Hpre as [H|[-> _]]; [exact H | congruence].
  - cbn [decimal] in Hd. destruct (isDigit c) eqn:Hc; [|discriminate].
    change (String c r) with (String c "" ++ r). rewrite <- append_assoc.
    apply (IH _ (10 * acc + digit c)).
    + left. destruct Hpre as [H|[-> ->]].
      * apply numeral_more; assumption.
      * apply (numeral_digit c Hc).
    + exact Hd.
    + destruct pre; discriminate.
Qed.

(** [number] reads exactly the decimal numerals. *)
Lemma number_numeral (s : string) (n : Z) : number s = Some n <-> numeral s n.
Proof.
  split.
  - intros H. destruct s as [|c r]; [discriminate|].
    apply (decimal_numeral (String c r) "" 0 n); [auto | exact H | discriminate].
  - induction 1 as [c Hc|s n c Hs IH Hc].
    + cbn. rewrite Hc. reflexivity.
    + pose proof (numeral_nonempty s n Hs) as Hne.
      assert (Ha : number (s ++ String c "") = decimal 0 (s ++ String c ""))
        by (destruct s; [congruence | reflexivity]).
      rewrite Ha, decimal_snoc.
      assert (Hb : decimal 0 s = Some n) by (destruct s; [congruence | exact IH]).
      rewrite Hb, Hc. reflexivity.
Qed.

Lemma rev_string_involutive (s acc : string) :
  rev_string "" (rev_string acc s) = rev_string s acc.
Proof.
  revert acc. induction s as [|a s IH]; intros acc; [reflexivity|].
  cbn [rev_string]. rewrite IH. reflexivity.
Qed.

Lemma rev_string_app (s1 s2 acc : string) :
  rev_string acc (s1 ++ s2) = rev_string (rev_string acc s1) s2.
Proof.
  revert acc. induction s1 as [|a s1 IH]; intros acc; [reflexivity|].
  cbn [String.append rev_string]. apply IH.
Qed.

(** Nothing is trimmed in front of a digit. *)
Lemma trimFront_digit (back : bool) (c : ascii) (r : string) :
  isDigit c = true -> trimFront back (String c r) = String c r.
Proof.
  intros H. unfold isDigit in H. apply andb_true_iff in H.
  rewrite !Z.leb_le in H.
  assert (E : forall v, 57 < v -> (code c =? v) = false)
    by (intros; apply Z.eqb_neq; lia).
  assert (E9 : (9 <=? code c) && (code c <=? 13) = false).
  { apply andb_false_iff. right. apply Z.leb_gt. lia. }
  assert (E128 : (128 <=? code c) = false) by (apply Z.leb_gt; lia).
  assert (E32 : (code c =? 32) = false) by (apply Z.eqb_neq; lia).
  cbn [trimFront]. unfold asciiSpace, space2, space3. cbv zeta.
  rewrite E9, E32. cbn [orb].
  destruct r as [|b r2]; [reflexivity|].
  rewrite !E by lia. rewrite E128. cbn [andb orb].
  rewrite ?andb_false_r. cbn [orb].
  destruct back; destruct r2 as [|d r3]; try reflexivity;
    rewrite ?andb_false_r; cbn [orb andb]; rewrite ?andb_false_r; reflexivity.
Qed.

Lemma numeral_ends (s : string) (n : Z) :
  numeral s n ->
  (exists c r, s = String c r /\ isDigit c = true)
  /\ (exists c r, s = r ++ String c "" /\ isDigit c = true).
Proof.
  induction 1 as [c Hc|s n c Hs [(a & r & -> & Ha) _] Hc].
  - split; [exists c, "" | exists c, ""]; auto.
  - split; [exists a, (r ++ String c "") | exists c, (String a r)]; auto.
Qed.

Lemma TrimSpace_numeral (s : string) (n : Z) : numeral s n -> TrimSpace s = s.
Proof.
  intros H. destruct (numeral_ends s n H) as [(a & r & Hs & Ha) (c & r' & Hs' & Hc)].
  unfold TrimSpace.
  rewrite Hs at 1. rewrite trimFront_digit by exact Ha. rewrite <- Hs.
  rewrite Hs' at 1. rewrite rev_string_app. cbn [rev_string].
  rewrite trimFront_digit by exact Hc.
  change (String c (rev_string "" r'))
    with (rev_string (rev_string "" r') (String c "")).
  rewrite <- rev_string_app, <- Hs'.
  apply rev_string_involutive.
Qed.

Lemma TrimSpace_space (s : string) : TrimSpace (String " " s) = TrimSpace s.
Proof. reflexivity. Qed.

Lemma HasPrefix_char (line : string) (c : ascii) :
  HasPrefix line (String c "") = true <-> exists rest, line = String c rest.
Proof.
  unfold HasPrefix. destruct line as [|a rest]; cbn.
  - split; [discriminate | intros [? H]; discriminate H].
  - destruct (ascii_dec c a) as [->|Hne].
    + split; [intros _; exists rest; reflexivity|].
      intros _. destruct rest; reflexivity.
    + split; [discriminate | intros [? [= H]]; congruence].
Qed.

(** ** Submitted lines *)

Section Lines.
Context {E : Externals}.

(** Outside the opening and the closing, the enter key submits the line. *)
Lemma enter_reached (now : Time) (m : model) :
  phase m = Idle \/ phase m = Active ->
  Update now (KeyMsg KeyEnter) m
  = enter now (set_err "" (set_textarea
                             (textarea_Update (KeyMsg KeyEnter) (textarea m)) m)).
Proof.
  intros [H|H].
  - apply phase_Idle in H. unfold Update, keyMsg. fields. rewrite H.
    cbn [andb]. rewrite andb_false_r. reflexivity.
  - apply phase_Active in H. destruct H as (Hi & Ho & Hc).
    unfold Update, keyMsg. fields. rewrite Hi, Ho, Hc.
    cbn [andb orb]. rewrite andb_false_r. reflexivity.
Qed.

Lemma enter_list (now : Time) (m : model) :
  HasPrefix (textarea m) "l" = true ->
  enter now m = listCommand (textarea m) (textarea_Reset m).
Proof.
  intros H. apply HasPrefix_char in H. destruct H as [rest H].
  unfold enter. rewrite H.
  assert (Hq : String.eqb (String "l" rest) "q" = false).
  { apply String.eqb_neq. discriminate. }
  rewrite Hq.
  unfold HasPrefix. cbn [String.prefix].
  destruct (ascii_dec "s" "l") as [Hx|_]; [discriminate Hx|].
  destruct (ascii_dec "b" "l") as [Hx|_]; [discriminate Hx|].
  destruct (ascii_dec "l" "l") as [_|Hx]; [|congruence].
  destruct rest; reflexivity.
Qed.

Lemma start_started (ty : string) (n : Z) (now : Time) (m : model) :
  fits n -> started ty n now (start ty n now m, CmdTick).
Proof.
  intros Hf. destruct (start_running ty n now m Hf) as [_ Hd Hr _ _ Hi Ho _ _].
  unfold started. cbn [fst snd].
  split; [reflexivity|]. split; [unfold phase; rewrite Hi, Ho; reflexivity|].
  split; [reflexivity|].
  split; [rewrite Hd; unfold Minute, time_Duration; ring|].
  split; [rewrite Hr; unfold Minute, time_Duration; ring|].
  split; reflexivity.
Qed.

(** An accepted start command, submitted while no session is on. *)
Lemma submit_start (now : Time) (m : model) (n : Z) :
  let line := textarea_Update (KeyMsg KeyEnter) (textarea m) in
  let m1 := textarea_Reset (set_err "" (set_textarea line m)) in
  let minutes dflt := if n =? 0 then dflt else n in
  phase m = Idle -> checkValidMinute line = mkCheck n true None ->
  (forall rest, line = String "s" rest ->
     Update now (KeyMsg KeyEnter) m
     = (start workSession (minutes 25) now m1, CmdTick))
  /\ (forall rest, line = String "b" rest ->
     Update now (KeyMsg KeyEnter) m
     = (start breakSession (minutes 5) now m1, CmdTick)).
Proof.
  cbv zeta. intros Hph Hck.
  set (line := textarea_Update (KeyMsg KeyEnter) (textarea m)) in *.
  pose proof (proj1 (phase_Idle m) Hph) as Hi.
  rewrite enter_reached by auto. fold line.
  unfold enter. fields.
  split; intros rest Hline.
  - assert (Hq : String.eqb line "q" = false)
      by (apply String.eqb_neq; rewrite Hline; discriminate).
    assert (Hs : HasPrefix line "s" = true)
      by (apply HasPrefix_char; eauto).
    rewrite Hq, Hs. unfold startCommand. rewrite Hck.
    cbn [reason ok numOfMinutes]. fields.
    rewrite Hi. reflexivity.
  - assert (Hq : String.eqb line "q" = false)
      by (apply String.eqb_neq; rewrite Hline; discriminate).
    assert (Hs : HasPrefix line "s" = false).
    { destruct (HasPrefix line "s") eqn:Hs; [|reflexivity].
      apply HasPrefix_char in Hs. destruct Hs as [? Hs]. congruence. }
    assert (Hb : HasPrefix line "b" = true)
      by (apply HasPrefix_char; eauto).
    rewrite Hq, Hs, Hb. unfold startCommand. rewrite Hck.
    cbn [reason ok numOfMinutes]. fields.
    rewrite Hi. reflexivity.
Qed.

End Lines.

Lemma checkValidMinute_spec_bare (c : ascii) :
  checkValidMinute_spec (String c "") = mkCheck 0 true None.
Proof. reflexivity. Qed.

Lemma checkValidMinute_spec_number (c : ascii) (ds : string) (n : Z) :
  numeral ds n ->
  checkValidMinute_spec (String c (String " " ds)) = mkCheck n true None.
Proof.
  intros H. unfold checkValidMinute_spec, from2. cbn [from1].
  change (String.eqb (String " " ds) "") with false.
  assert (Hp : HasPrefix (String " " ds) " " = true)
    by (apply HasPrefix_char; eauto).
  rewrite Hp. cbn [negb].
  rewrite (TrimSpace_numeral ds n H).
  rewrite (proj2 (number_numeral ds n) H). reflexivity.
Qed.

(** ** The claims *)

(** C1.  A work session started for 25 minutes has the 25 minutes and
    the 3 seconds before them to go.  Ticks are numbered from 0, so tick
    number [25 * 60 + 3 - 1] is the last of the first [25 * 60 + 3] ticks.
    Before it the time left is positive and the phase is Opening or Active;
    with it the time left reaches 0 and the phase becomes Closing; the
    phase stays Closing for the next three ticks, and the fourth moves it
    to Idle and appends one session, of 25 minutes, to the log.  [nows]
    holds the clock readings of the ticks handled so far. *)
Theorem work_session_of_25_minutes {E : Externals}
    (m0 : model) (now0 : Time) (nows : list Time) :
  let s0 := start workSession 25 now0 m0 in
  let k := Z.of_nat (List.length nows) in
  let s := ticks nows s0 in
  (k < 25 * 60 + 3 ->
     0 < remainingTime s /\ (phase s = Opening \/ phase s = Active)
     /\ sessions s = sessions m0)
  /\ (k = (25 * 60 + 3 - 1) + 1 ->
     remainingTime s = 0 /\ phase s = Closing /\ sessions s = sessions m0)
  /\ (25 * 60 + 3 < k < 25 * 60 + 3 + 4 ->
     phase s = Closing /\ sessions s = sessions m0)
  /\ (k = 25 * 60 + 3 + 4 ->
     phase s = Idle
     /\ sessions s
        = (sessions m0 ++ [mkSession now0 (last nows 0) (25 * Minute)])%list).
Proof.
  cbv zeta.
  assert (Hf : fits 25) by (unfold fits; lia).
  pose proof (fits_representable 25 Hf) as Hc.
  pose proof (start_running workSession 25 now0 m0 Hf) as H0.
  change (60 * 25) with 1500 in *.
  assert (HS : Second = 1000000000) by reflexivity.
  assert (Hrun : Z.of_nat (List.length nows) <= 1506 ->
                 running (start workSession 25 now0 m0) 1500
                   (Z.of_nat (List.length nows))
                   (ticks nows (start workSession 25 now0 m0)))
    by (intros; apply running_ticks; auto).
  split; [|split; [|split]]; intros Hk; repeat apply conj.
  - destruct (Hrun ltac:(lia)) as [_ _ Hr _ _ _ _ _ _]. rewrite Hr, HS. lia.
  - rewrite (running_phase _ _ _ _ (Hrun ltac:(lia))).
    destruct (Z.ltb_spec (Z.of_nat (List.length nows)) 3); [auto|].
    destruct (Z.leb_spec (1500 + 3) (Z.of_nat (List.length nows))); [lia | auto].
  - apply (Hrun ltac:(lia)).
  - destruct (Hrun ltac:(lia)) as [_ _ Hr _ _ _ _ _ _]. rewrite Hr, Hk. reflexivity.
  - rewrite (running_phase _ _ _ _ (Hrun ltac:(lia))), Hk. reflexivity.
  - apply (Hrun ltac:(lia)).
  - rewrite (running_phase _ _ _ _ (Hrun ltac:(lia))).
    destruct (Z.ltb_spec (Z.of_nat (List.length nows)) 3); [lia|].
    destruct (Z.leb_spec (1500 + 3) (Z.of_nat (List.length nows))); [auto | lia].
  - apply (Hrun ltac:(lia)).
  - apply phase_Idle. apply (running_over _ 1500); auto. lia.
  - destruct nows as [|t0 rest] using rev_ind; [cbn in Hk; lia|]. clear IHrest.
    rewrite length_app, Nat2Z.inj_add in Hk.
    cbn [List.length Z.of_nat Pos.of_succ_nat] in Hk.
    rewrite ticks_snoc, last_last.
    pose proof (running_ticks _ 1500 rest Hc H0 ltac:(lia)) as Hr.
    replace (Z.of_nat (List.length rest)) with (1500 + 6) in Hr by lia.
    destruct (running_last _ 1500 _ t0 Hc Hr) as (_&_&_&_&_&_&_&Hs&_).
    rewrite Hs. reflexivity.
Qed.

(** The theorem at the ticks of a clock that stands at 7: after 1502,
    1503, 1506 and 1507 of them. *)
Lemma work_session_of_25_minutes_witness :
  let s0 := start workSession 25 0 prompt in
  let len n := Z.of_nat (List.length (repeat 7 n)) in
  let at_ n := @ticks (desk saves) (repeat 7 n) s0 in
  (len 1502%nat < 25 * 60 + 3 /\ len 1503%nat = (25 * 60 + 3 - 1) + 1
   /\ 25 * 60 + 3 < len 1506%nat < 25 * 60 + 3 + 4
   /\ len 1507%nat = 25 * 60 + 3 + 4)
  /\ (0 < remainingTime (at_ 1502%nat)
      /\ (phase (at_ 1502%nat) = Opening \/ phase (at_ 1502%nat) = Active)
      /\ sessions (at_ 1502%nat) = [])
  /\ (remainingTime (at_ 1503%nat) = 0 /\ phase (at_ 1503%nat) = Closing
      /\ sessions (at_ 1503%nat) = [])
  /\ (phase (at_ 1506%nat) = Closing /\ sessions (at_ 1506%nat) = [])
  /\ (phase (at_ 1507%nat) = Idle
      /\ sessions (at_ 1507%nat)
         = ([] ++ [mkSession 0 (last (repeat 7 1507%nat) 0) (25 * Minute)])%list).
Proof.
  cbv zeta.
  pose proof (fun n => @work_session_of_25_minutes (desk saves) prompt 0
                         (repeat 7 n)) as W.
  cbv zeta in W.
  assert (L : forall n, List.length (repeat 7 n) = n) by (intros; apply repeat_length).
  assert (H : Z.of_nat (List.length (repeat 7 1502%nat)) < 25 * 60 + 3
              /\ Z.of_nat (List.length (repeat 7 1503%nat)) = (25 * 60 + 3 - 1) + 1
              /\ 25 * 60 + 3 < Z.of_nat (List.length (repeat 7 1506%nat))
                 < 25 * 60 + 3 + 4
              /\ Z.of_nat (List.length (repeat 7 1507%nat)) = 25 * 60 + 3 + 4).
  { rewrite !L. repeat split. }
  split; [exact H|]. destruct H as (H1 & H2 & H3 & H4).
  split; [exact (proj1 (W 1502%nat) H1)|].
  split; [exact (proj1 (proj2 (W 1503%nat)) H2)|].
  split; [exact (proj1 (proj2 (proj2 (W 1506%nat))) H3)|].
  exact (proj2 (proj2 (proj2 (W 1507%nat))) H4).
Defined.

(** C2 (amended).  The stop key pressed in the Active phase makes the
    phase Idle at once, appends nothing to the log and schedules nothing.
    Pressed in the Opening or the Closing phase it is ignored like any
    other key: only the input line sees it, the timer and the log stay as
    they are. *)
Theorem stop_key {E : Externals} (now : Time) (k : Key) (m : model) :
  Matches k Stop = true ->
  let r := Update now (KeyMsg k) m in
  (phase m = Active ->
     phase (fst r) = Idle /\ sessions (fst r) = sessions m /\ snd r = CmdNil)
  /\ (phase m = Opening \/ phase m = Closing ->
     r = (set_textarea (textarea_Update (KeyMsg k) (textarea m)) m, CmdNil)
     /\ timer (fst r) = timer m /\ sessions (fst r) = sessions m).
Proof.
  intros Hs. cbv zeta. split; intros Hph.
  - apply phase_Active in Hph. destruct Hph as (Hi & Ho & Hc).
    unfold Update, keyMsg. fields. rewrite Hi, Ho, Hc, Hs. cbn [andb orb]. fields.
    repeat split. 
  - rewrite key_ignored by assumption. repeat split.
Qed.

(** The theorem at the stop key, in one minute of work that is active and
    in one that opens. *)
Lemma stop_key_witness :
  let r m := @Update (desk saves) 2 (KeyMsg (KeyRunes "x")) m in
  (Matches (KeyRunes "x") Stop = true /\ phase work_active = Active
   /\ phase work_opening = Opening)
  /\ (phase (fst (r work_active)) = Idle
      /\ sessions (fst (r work_active)) = sessions work_active
      /\ snd (r work_active) = CmdNil)
  /\ (r work_opening
      = (set_textarea (typed (KeyMsg (KeyRunes "x")) (textarea work_opening))
           work_opening, CmdNil)
      /\ timer (fst (r work_opening)) = timer work_opening
      /\ sessions (fst (r work_opening)) = sessions work_opening).
Proof.
  cbv zeta.
  pose proof (@stop_key (desk saves) 2 (KeyRunes "x")) as W. cbv zeta in W.
  assert (Ha : phase work_active = Active) by (vm_compute; reflexivity).
  assert (Ho : phase work_opening = Opening) by (vm_compute; reflexivity).
  split; [auto|]. split.
  - exact (proj1 (W work_active eq_refl) Ha).
  - exact (proj2 (W work_opening eq_refl) (or_introl Ho)).
Defined.

(** C2 as stated fails: one minute of work is started, the stop key is
    pressed during the opening, and the phase is still Opening; the
    session runs on and is logged 67 ticks later. *)
Lemma stop_ignored_while_opening :
  let pressed :=
    fst (@Update (desk saves) 1 (KeyMsg (KeyRunes "x")) work_opening) in
  phase work_opening = Opening
  /\ Matches (KeyRunes "x") Stop = true
  /\ phase pressed = Opening
  /\ sessions (@run (desk saves) (seconds 67 1) pressed)
     = [mkSession 0 1 (1 * Minute)].
Proof.
  cbv zeta. repeat split; vm_compute; reflexivity.
Qed.

(** C3.  In every state whose phase is not Idle, submitting a line that
    begins with [s] or [b] changes none of phase, session type, duration,
    time left, start time and fraction, appends no session and schedules
    no tick. *)
Theorem start_during_session {E : Externals} (now : Time) (m : model) :
  let line := textarea_Update (KeyMsg KeyEnter) (textarea m) in
  let r := Update now (KeyMsg KeyEnter) m in
  phase m <> Idle ->
  HasPrefix line "s" = true \/ HasPrefix line "b" = true ->
  timer (fst r) = timer m /\ sessions (fst r) = sessions m /\ snd r = CmdNil.
Proof.
  cbv zeta. intros Hph Hline.
  assert (Hi : inSession m = true).
  { destruct (inSession m) eqn:Hi; [reflexivity|].
    exfalso. apply Hph. apply phase_Idle. exact Hi. }
  destruct (phase m) eqn:Hp; try congruence.
  - rewrite key_ignored by auto. repeat split.
  - pose proof (proj1 (phase_Active m) Hp) as (_ & Ho & Hc).
    destruct (key_in_session now KeyEnter m Hi) as (Hu & _ & Hin).
    assert (Hin' : inSession (fst (Update now (KeyMsg KeyEnter) m)) = true)
      by (destruct Hin as [?|(_ & Hx & _)]; [assumption | discriminate Hx]).
    split; [apply timer_untouched; [exact Hu | congruence]|].
    split; [apply Hu|].
    unfold Update, keyMsg, enter. fields. rewrite Hi, Ho, Hc. cbn [andb orb].
    rewrite andb_false_r. cbn -[HasPrefix String.eqb].
    set (line := textarea_Update (KeyMsg KeyEnter) (textarea m)) in *.
    assert (Hq : String.eqb line "q" = false).
    { apply String.eqb_neq. intros ->. destruct Hline as [H|H]; discriminate H. }
    rewrite Hq.
    match goal with |- context [startCommand _ _ _ _ ?x] => set (m1 := x) end.
    destruct (HasPrefix line "s").
    + apply (startCommand_in_session workSession 25 line now m1 Hi).
    + destruct Hline as [H|H]; [discriminate H|]. rewrite H.
      apply (startCommand_in_session breakSession 5 line now m1 Hi).
  - rewrite key_ignored by auto. repeat split.
Qed.

(** The theorem at a break asked for while work opens, and at work asked
    for while work is active. *)
Lemma start_during_session_witness :
  let r m := @Update (desk saves) 3 (KeyMsg KeyEnter) m in
  let line m := typed (KeyMsg KeyEnter) (textarea m) in
  let a := typing "b 5" work_opening in
  let b := typing "s" work_active in
  (phase a <> Idle /\ HasPrefix (line a) "b" = true
   /\ phase b <> Idle /\ HasPrefix (line b) "s" = true)
  /\ (timer (fst (r a)) = timer a /\ sessions (fst (r a)) = sessions a
      /\ snd (r a) = CmdNil)
  /\ (timer (fst (r b)) = timer b /\ sessions (fst (r b)) = sessions b
      /\ snd (r b) = CmdNil).
Proof.
  cbv zeta.
  pose proof (@start_during_session (desk saves) 3) as W. cbv zeta in W.
  assert (Ha : phase (typing "b 5" work_opening) <> Idle)
    by (vm_compute; discriminate).
  assert (Hb : phase (typing "s" work_active) <> Idle)
    by (vm_compute; discriminate).
  assert (La : HasPrefix (typed (KeyMsg KeyEnter)
                            (textarea (typing "b 5" work_opening))) "b" = true)
    by (vm_compute; reflexivity).
  assert (Lb : HasPrefix (typed (KeyMsg KeyEnter)
                            (textarea (typing "s" work_active))) "s" = true)
    by (vm_compute; reflexivity).
  split; [auto|]. split.
  - exact (W (typing "b 5" work_opening) Ha (or_intror La)).
  - exact (W (typing "s" work_active) Hb (or_introl Lb)).
Defined.

(** C4 (amended).  In a session started for [n] minutes, with [n] from 1
    to 153722867, the fraction does not decrease from one tick in the
    Active phase to the next; the tick that moves the phase from Active to
    Closing leaves the fraction as it was, at one second short of the
    whole, which is below 1. *)
Theorem percent_across_ticks {E : Externals} (ty : string) (n : Z)
    (now0 : Time) (m0 : model) (nows : list Time) (t : Time) :
  let s0 := start ty n now0 m0 in
  let a := ticks nows s0 in
  let b := ticks (nows ++ [t]) s0 in
  fits n -> phase a = Active ->
  (phase b = Active -> (percent a <= percent b)%Q)
  /\ (phase b = Closing ->
      percent b = percent a
      /\ (percent b == 1 - inject_Z 1 / inject_Z (60 * n))%Q
      /\ (percent b < 1)%Q).
Proof.
  cbv zeta. intros Hf Ha.
  pose proof (fits_representable n Hf) as Hc.
  pose proof (start_running ty n now0 m0 Hf) as H0.
  set (s0 := start ty n now0 m0) in *.
  set (k := Z.of_nat (List.length nows)).
  assert (Hk : k <= 60 * n + 6).
  { destruct (Z.le_gt_cases k (60 * n + 6)) as [H|H]; [exact H|].
    assert (Hover : inSession (ticks nows s0) = false)
      by (apply (running_over s0 (60 * n)); auto; fold k; lia).
    apply phase_Idle in Hover. congruence. }
  pose proof (running_ticks s0 (60 * n) nows Hc H0 Hk) as Hra. fold k in Hra.
  rewrite (running_phase _ _ _ _ Hra) in Ha.
  destruct (Z.ltb_spec k 3) as [|Hk3]; [discriminate Ha|].
  destruct (Z.leb_spec (60 * n + 3) k) as [|Hk4]; [discriminate Ha|].
  assert (Hlen : Z.of_nat (List.length (nows ++ [t])) = k + 1)
    by (rewrite length_app, Nat2Z.inj_add; reflexivity).
  pose proof (running_ticks s0 (60 * n) (nows ++ [t]) Hc H0 ltac:(lia)) as Hrb.
  rewrite Hlen in Hrb.
  rewrite (running_phase _ _ _ _ Hrb).
  destruct Hra as [_ _ _ _ _ _ _ _ Hpa], Hrb as [_ _ _ _ _ _ _ _ Hpb].
  rewrite Hpa, Hpb. destruct Hf as [Hn1 Hn2].
  destruct (Z.ltb_spec (k + 1) 3); [lia|].
  destruct (Z.leb_spec (60 * n + 3) (k + 1)); split; intros Hb; try discriminate Hb.
  - assert (k = 60 * n + 2) by lia. subst k.
    rewrite !shown_end by lia. rewrite !Milliseconds_Second.
    split; [congruence|]. split.
    + change (1 * 1000) with 1000.
      unfold Qeq, Qminus, Qplus, Qopp, Qdiv, Qmult, Qinv, inject_Z.
      destruct (60 * n) as [|c|c] eqn:Hc60; try lia.
      cbn [Qnum Qden Z.mul]. rewrite ?Pos2Z.inj_mul. nia.
    + apply fraction_lt_1; lia.
  - apply shown_mono; lia.
Qed.

(** The theorem in one minute of work, from the 10th tick to the 11th
    and from the 62nd to the 63rd. *)
Lemma percent_across_ticks_witness :
  let s0 := start workSession 1 0 prompt in
  let at_ n := @ticks (desk saves) (repeat 1 n) s0 in
  (fits 1 /\ phase (at_ 10%nat) = Active /\ phase (at_ 62%nat) = Active)
  /\ (phase (at_ 11%nat) = Active -> (percent (at_ 10%nat) <= percent (at_ 11%nat))%Q)
  /\ (phase (at_ 63%nat) = Closing ->
      percent (at_ 63%nat) = percent (at_ 62%nat)
      /\ (percent (at_ 63%nat) == 1 - inject_Z 1 / inject_Z (60 * 1))%Q
      /\ (percent (at_ 63%nat) < 1)%Q).
Proof.
  cbv zeta.
  pose proof (fun n => @percent_across_ticks (desk saves) workSession 1 0 prompt
                         (repeat 1 n) 1) as W.
  cbv zeta in W.
  assert (Hf : fits 1) by (unfold fits; lia).
  assert (H10 : phase (@ticks (desk saves) (repeat 1 10%nat)
                         (start workSession 1 0 prompt)) = Active) by (vm_compute; reflexivity).
  assert (H62 : phase (@ticks (desk saves) (repeat 1 62%nat)
                         (start workSession 1 0 prompt)) = Active) by (vm_compute; reflexivity).
  split; [auto|]. split.
  - exact (proj1 (W 10%nat Hf H10)).
  - exact (proj2 (W 62%nat Hf H62)).
Defined.

(** C4 as stated fails twice.  In a session of one minute the tick that
    brings the phase to Closing leaves the fraction at 59/60, not 1.  And a
    session asked for 4503599627370496 minutes gets, by overflow, the
    least [int64] as its duration; its time left wraps around to a large
    positive value, and between two ticks in the Active phase the fraction
    falls. *)
Lemma percent_short_of_one :
  let a := @run (desk saves) (seconds 59 1) work_active in
  let b := @run (desk saves) (seconds 60 1) work_active in
  let s0 := @run (desk saves) (submit "s 4503599627370496" 0) prompt in
  let c := @ticks (desk saves) (repeat 1 4%nat) s0 in
  let d := @ticks (desk saves) (repeat 1 5%nat) s0 in
  (phase a = Active /\ phase b = Closing /\ remainingTime b = 0
   /\ percent b = (59000 # 60000)%Q /\ ~ (percent b == 1)%Q)
  /\ (timerDuration s0 = min_int64
      /\ phase c = Active /\ phase d = Active /\ (percent d < percent c)%Q).
Proof.
  cbv zeta. split.
  - split; [vm_compute; reflexivity|]. split; [vm_compute; reflexivity|].
    split; [vm_compute; reflexivity|]. split; [vm_compute; reflexivity|].
    intros H. vm_compute in H. discriminate H.
  - split; [vm_compute; reflexivity|]. split; [vm_compute; reflexivity|].
    split; vm_compute; reflexivity.
Qed.

(** C5.  After any sequence of messages from any state, if the session
    type is Break then no message appends to the log; this includes the
    tick that ends the closing of a break.  A message that does change the
    log is the tick that ends a work session, and it appends that
    session. *)
Theorem break_never_logged {E : Externals}
    (evs : list (Time * Msg)) (m : model) (now : Time) (msg : Msg) :
  let s := run evs m in
  let s' := fst (Update now msg s) in
  (sessionType s = breakSession -> sessions s' = sessions s)
  /\ (sessions s' <> sessions s ->
      msg = tickMsg /\ sessionType s = workSession /\ phase s' = Idle
      /\ sessions s'
         = (sessions s ++ [mkSession (startTime s) now (timerDuration s)])%list).
Proof.
  cbv zeta.
  destruct (step_log now msg (run evs m)) as [H|(Hm & Hw & _ & _ & Hi & Hs)].
  - split; [intros _; exact H | intros Hne; contradiction].
  - split.
    + intros Hb. rewrite Hb in Hw. discriminate Hw.
    + intros _. apply phase_Idle in Hi. auto.
Qed.

(** The theorem at the last tick of a break of one minute, and at the last
    tick of one minute of work. *)
Lemma break_never_logged_witness :
  let s := @run (desk saves) break_events prompt in
  let w := @run (desk saves) [] work_closing in
  let w' := fst (@Update (desk saves) 2 tickMsg w) in
  (sessionType s = breakSession /\ sessions w' <> sessions w)
  /\ sessions (fst (@Update (desk saves) 2 tickMsg s)) = sessions s
  /\ (sessionType w = workSession /\ phase w' = Idle
      /\ sessions w'
         = (sessions w ++ [mkSession (startTime w) 2 (timerDuration w)])%list).
Proof.
  cbv zeta.
  assert (Hb : sessionType (@run (desk saves) break_events prompt) = breakSession)
    by (vm_compute; reflexivity).
  assert (Hw : sessions (fst (@Update (desk saves) 2 tickMsg
                                (@run (desk saves) [] work_closing)))
               <> sessions (@run (desk saves) [] work_closing))
    by (vm_compute; discriminate).
  split; [auto|]. split.
  - exact (proj1 (@break_never_logged (desk saves) break_events prompt 2 tickMsg) Hb).
  - destruct (proj2 (@break_never_logged (desk saves) [] work_closing 2 tickMsg) Hw)
      as (_ & H1 & H2 & H3).
    auto.
Defined.

(** C6.  On the tick that ends a work session (in a session, past the
    opening, the new time left at most -4 seconds), when the store fails
    with the message [e]: [Update] returns, the phase is Idle, nothing
    more is scheduled, [e] is the text of the error line, and the prompt
    shows it unless the list view is open. *)
Theorem failed_save_is_reported {E : Externals}
    (now : Time) (m : model) (e : string) :
  let done := (sessions m ++ [mkSession (startTime m) now (timerDuration m)])%list in
  let r := Update now tickMsg m in
  inSession m = true -> opening m = false ->
  wrap64 (remainingTime m - 1 * Second) <= -4 * Second ->
  sessionType m = workSession ->
  saveSessions done = Some e ->
  snd r = CmdNil /\ phase (fst r) = Idle /\ err (fst r) = e
  /\ (showSession m = false -> View (fst r) = PromptScreen (textarea (fst r)) e).
Proof.
  cbv zeta. intros Hi Ho Hr Hw Hsave.
  destruct (completion_tick now m Hi Ho Hr Hw) as (Hc & Hp & Hs & Hsh & He).
  rewrite Hsave in He.
  repeat split; try assumption.
  intros Hv. unfold View. rewrite Hsh, Hv.
  apply phase_Idle in Hp. rewrite Hp. cbn [negb]. rewrite He. reflexivity.
Qed.

(** The theorem at the last tick of one minute of work, with a store that
    fails. *)
Lemma failed_save_is_reported_witness :
  let r := @Update (desk (fails "disk full")) 9 tickMsg work_closing in
  (inSession work_closing = true /\ opening work_closing = false
   /\ wrap64 (remainingTime work_closing - 1 * Second) <= -4 * Second
   /\ sessionType work_closing = workSession
   /\ showSession work_closing = false)
  /\ snd r = CmdNil /\ phase (fst r) = Idle /\ err (fst r) = "disk full"
  /\ View (fst r) = PromptScreen (textarea (fst r)) "disk full".
Proof.
  cbv zeta.
  assert (H : inSession work_closing = true /\ opening work_closing = false
              /\ wrap64 (remainingTime work_closing - 1 * Second) <= -4 * Second
              /\ sessionType work_closing = workSession
              /\ showSession work_closing = false).
  { repeat split; try (vm_compute; reflexivity). vm_compute. discriminate. }
  split; [exact H|]. destruct H as (H1 & H2 & H3 & H4 & H5).
  destruct (@failed_save_is_reported (desk (fails "disk full")) 9 work_closing
              "disk full" H1 H2 H3 H4 eq_refl) as (R1 & R2 & R3 & R4).
  auto.
Defined.

(** C7 (amended).  Submitting a line that begins with [l] never changes
    the timer state or the log and schedules nothing.  In the Opening
    and the Closing phase the enter key is ignored.  In the Idle and in the
    Active phase the command is carried out: [l] opens the list view of all
    days, [l] with a space and a date opens the view of that date. *)
Theorem list_command {E : Externals} (now : Time) (m : model) :
  let line := textarea_Update (KeyMsg KeyEnter) (textarea m) in
  let r := Update now (KeyMsg KeyEnter) m in
  HasPrefix line "l" = true ->
  (timer (fst r) = timer m /\ sessions (fst r) = sessions m /\ snd r = CmdNil)
  /\ (phase m = Opening \/ phase m = Closing ->
      r = (set_textarea line m, CmdNil))
  /\ (phase m = Idle \/ phase m = Active ->
      (line = "l" ->
       showSession (fst r) = true /\ printDifferentDate (fst r) = false)
      /\ (forall date,
           line <> "l" -> HasPrefix (from1 line) " " = true ->
           Parse_DateOnly (TrimSpace (from2 line)) = Some date ->
           showSession (fst r) = true /\ printDifferentDate (fst r) = true
           /\ datePrint (fst r) = date)).
Proof.
  cbv zeta. intros Hl.
  set (line := textarea_Update (KeyMsg KeyEnter) (textarea m)) in *.
  assert (Hlist : phase m = Idle \/ phase m = Active ->
            Update now (KeyMsg KeyEnter) m
            = listCommand line (textarea_Reset (set_err "" (set_textarea line m)))).
  { intros Hph. rewrite enter_reached by exact Hph. fold line.
    rewrite enter_list by exact Hl. reflexivity. }
  split; [|split].
  - destruct (phase m) eqn:Hph.
    + rewrite Hlist by auto.
      destruct (listCommand_untouched line
                  (textarea_Reset (set_err "" (set_textarea line m))))
        as (Hu & Hi & Hc).
      split; [|split; [apply Hu | exact Hc]].
      apply timer_untouched; [exact Hu | exact Hi].
    + rewrite key_ignored by auto. repeat split.
    + rewrite Hlist by auto.
      destruct (listCommand_untouched line
                  (textarea_Reset (set_err "" (set_textarea line m))))
        as (Hu & Hi & Hc).
      split; [|split; [apply Hu | exact Hc]].
      apply timer_untouched; [exact Hu | exact Hi].
    + rewrite key_ignored by auto. repeat split.
  - intros Hph. apply key_ignored. exact Hph.
  - intros Hph. rewrite (Hlist Hph). unfold listCommand. split.
    + intros ->. cbn [String.eqb Ascii.eqb Bool.eqb andb]. fields. auto.
    + intros date Hne Hsp Hd.
      apply String.eqb_neq in Hne. rewrite Hne, Hsp, Hd. cbn [negb]. fields. auto.
Qed.

(** The theorem at a dated list asked for while work is active, and at
    the list asked for while work opens. *)
Lemma list_command_witness :
  let r m := @Update (desk saves) 3 (KeyMsg KeyEnter) m in
  let dated := typing "l 2024-02-29" work_active in
  (HasPrefix (typed (KeyMsg KeyEnter) (textarea dated)) "l" = true
   /\ phase dated = Active
   /\ phase (typing "l" work_opening) = Opening)
  /\ timer (fst (r dated)) = timer dated
  /\ (showSession (fst (r dated)) = true /\ printDifferentDate (fst (r dated)) = true
      /\ datePrint (fst (r dated)) = mkDate 2024 2 29)
  /\ r (typing "l" work_opening)
     = (set_textarea (typed (KeyMsg KeyEnter) (textarea (typing "l" work_opening)))
          (typing "l" work_opening), CmdNil).
Proof.
  cbv zeta.
  pose proof (@list_command (desk saves) 3) as W. cbv zeta in W.
  assert (Hl : HasPrefix (typed (KeyMsg KeyEnter)
                            (textarea (typing "l 2024-02-29" work_active))) "l" = true)
    by (vm_compute; reflexivity).
  assert (Ha : phase (typing "l 2024-02-29" work_active) = Active)
    by (vm_compute; reflexivity).
  assert (Ho : phase (typing "l" work_opening) = Opening) by (vm_compute; reflexivity).
  split; [auto|].
  destruct (W (typing "l 2024-02-29" work_active) Hl) as ((H1 & _) & _ & H3).
  split; [exact H1|]. split.
  - apply (proj2 (H3 (or_intror Ha)) (mkDate 2024 2 29));
      [vm_compute; discriminate | vm_compute; reflexivity | vm_compute; reflexivity].
  - apply (proj1 (proj2 (W (typing "l" work_opening) ltac:(vm_compute; reflexivity)))).
    left. exact Ho.
Defined.

(** C7 as stated fails: with one minute of work in its Active phase the
    line [l] is typed and submitted, and the list view opens while the
    session goes on. *)
Lemma list_accepted_while_active :
  let m := typing "l" work_active in
  let r := @Update (desk saves) 3 (KeyMsg KeyEnter) m in
  phase m = Active /\ phase (fst r) = Active /\ showSession (fst r) = true
  /\ View (fst r) = SessionsScreen [] false zeroDate.
Proof.
  cbv zeta. repeat split; vm_compute; reflexivity.
Qed.

(** C8.  A line is read in the Idle and in the Active phase.  The line
    [l 2024-02-30] is turned down with "Invalid date format".  Every line
    that begins with [l] and goes on, where what follows does not begin
    with a space or, trimmed, is not the ISO notation of a calendar date,
    is turned down: a reason is shown, no list view opens and nothing is
    scheduled. *)
Theorem bad_list_command {E : Externals} (now : Time) (m : model) :
  let line := textarea_Update (KeyMsg KeyEnter) (textarea m) in
  let r := Update now (KeyMsg KeyEnter) m in
  phase m = Idle \/ phase m = Active ->
  (line = "l 2024-02-30" ->
   err (fst r) = "Invalid date format" /\ rejected m (fst r) /\ snd r = CmdNil)
  /\ (HasPrefix line "l" = true -> line <> "l" ->
      HasPrefix (from1 line) " " = false
      \/ (forall d, ~ iso_date (TrimSpace (from1 line)) d) ->
      rejected m (fst r) /\ snd r = CmdNil).
Proof.
  cbv zeta. intros Hph.
  set (line := textarea_Update (KeyMsg KeyEnter) (textarea m)) in *.
  assert (Hgen : HasPrefix line "l" = true -> line <> "l" ->
            HasPrefix (from1 line) " " = false
            \/ Parse_DateOnly (TrimSpace (from2 line)) = None ->
            (err (fst (Update now (KeyMsg KeyEnter) m)) = "Invalid command"
             /\ HasPrefix (from1 line) " " = false
             \/ err (fst (Update now (KeyMsg KeyEnter) m)) = "Invalid date format"
                /\ HasPrefix (from1 line) " " = true)
            /\ rejected m (fst (Update now (KeyMsg KeyEnter) m))
            /\ snd (Update now (KeyMsg KeyEnter) m) = CmdNil).
  { intros Hl Hne Hbad.
    rewrite enter_reached by exact Hph. fold line.
    rewrite enter_list by exact Hl.
    unfold listCommand. fields.
    apply String.eqb_neq in Hne. rewrite Hne.
    destruct (HasPrefix (from1 line) " ") eqn:Hsp; cbn [negb].
    - destruct Hbad as [Hx|Hp]; [discriminate Hx|]. rewrite Hp.
      unfold rejected. fields. auto 10.
    - unfold rejected. fields. auto 10. }
  split.
  - intros Hline.
    destruct Hgen as ([(_ & Hx)|(He & _)] & Hr & Hc).
    + rewrite Hline. reflexivity.
    + rewrite Hline. discriminate.
    + right. rewrite Hline. reflexivity.
    + rewrite Hline in Hx. discriminate Hx.
    + auto.
  - intros Hl Hne Hbad. apply Hgen; [exact Hl | exact Hne |].
    destruct (HasPrefix (from1 line) " ") eqn:Hsp; [right | left; reflexivity].
    destruct Hbad as [Hx|Hbad]; [discriminate Hx|].
    apply HasPrefix_char in Hsp. destruct Hsp as [rest Hsp].
    assert (Hfrom : from2 line = rest) by (unfold from2; rewrite Hsp; reflexivity).
    rewrite Hsp, TrimSpace_space, <- Hfrom in Hbad.
    destruct (Parse_DateOnly (TrimSpace (from2 line))) as [d|] eqn:Hp; [|reflexivity].
    exfalso. apply (Hbad d). apply Parse_DateOnly_iso. exact Hp.
Qed.

(** The theorem at the prompt, for February 30, for a line without the
    space and for February 29 of a common year. *)
Lemma bad_list_command_witness :
  let r line := @Update (desk saves) 3 (KeyMsg KeyEnter) (typing line prompt) in
  (err (fst (r "l 2024-02-30")) = "Invalid date format"
   /\ rejected (typing "l 2024-02-30" prompt) (fst (r "l 2024-02-30"))
   /\ snd (r "l 2024-02-30") = CmdNil)
  /\ (rejected (typing "list" prompt) (fst (r "list")) /\ snd (r "list") = CmdNil)
  /\ (rejected (typing "l 2023-02-29" prompt) (fst (r "l 2023-02-29"))
      /\ snd (r "l 2023-02-29") = CmdNil).
Proof.
  cbv zeta.
  pose proof (fun line => @bad_list_command (desk saves) 3 (typing line prompt)) as W.
  cbv zeta in W.
  assert (Hi : forall line, phase (typing line prompt) = Idle \/
                            phase (typing line prompt) = Active)
    by (intros; left; reflexivity).
  split; [|split].
  - apply (proj1 (W "l 2024-02-30" (Hi _))). vm_compute. reflexivity.
  - apply (proj2 (W "list" (Hi _)));
      [vm_compute; reflexivity | vm_compute; discriminate |].
    left. vm_compute. reflexivity.
  - apply (proj2 (W "l 2023-02-29" (Hi _)));
      [vm_compute; reflexivity | vm_compute; discriminate |].
    right. intros d Hd. apply Parse_DateOnly_iso in Hd. vm_compute in Hd.
    discriminate Hd.
Defined.

(** C9 (amended).  With the minute check of the specification, at the
    prompt (phase Idle): [s] or [b], a space and a numeral of [n] start a
    work session or a break of [n] minutes, for [n] from 1 to 153722867,
    with 3 more seconds to go before it and a tick scheduled; the bare
    [s] and [b] start 25 and 5 minutes; and so does a numeral of 0. *)
Theorem start_commands (ta : Msg -> string -> string)
    (save : list session -> option string) (now : Time) (m : model) :
  let line := ta (KeyMsg KeyEnter) (textarea m) in
  let r := @Update (spec_desk ta save) now (KeyMsg KeyEnter) m in
  phase m = Idle ->
  (forall ds n, numeral ds n -> fits n ->
     (line = "s " ++ ds -> started workSession n now r)
     /\ (line = "b " ++ ds -> started breakSession n now r))
  /\ (line = "s" -> started workSession 25 now r)
  /\ (line = "b" -> started breakSession 5 now r)
  /\ (forall ds, numeral ds 0 ->
     (line = "s " ++ ds -> started workSession 25 now r)
     /\ (line = "b " ++ ds -> started breakSession 5 now r)).
Proof.
  cbv zeta. intros Hph.
  pose proof (@submit_start (spec_desk ta save) now m) as Hsub. cbv zeta in Hsub.
  cbn [textarea_Update checkValidMinute spec_desk] in Hsub.
  assert (H25 : fits 25) by (unfold fits; lia).
  assert (H5 : fits 5) by (unfold fits; lia).
  split; [|split; [|split]].
  - intros ds n Hn Hf.
    assert (Hz : (n =? 0) = false) by (apply Z.eqb_neq; destruct Hf; lia).
    split; intros Hline;
      destruct (Hsub n Hph) as [Hs Hb];
      try (rewrite Hline; apply checkValidMinute_spec_number; exact Hn).
    + rewrite (Hs _ Hline), Hz. apply start_started. exact Hf.
    + rewrite (Hb _ Hline), Hz. apply start_started. exact Hf.
  - intros Hline. destruct (Hsub 0 Hph) as [Hs _]; [rewrite Hline; reflexivity|].
    rewrite (Hs _ Hline). apply start_started. exact H25.
  - intros Hline. destruct (Hsub 0 Hph) as [_ Hb]; [rewrite Hline; reflexivity|].
    rewrite (Hb _ Hline). apply start_started. exact H5.
  - intros ds Hn.
    split; intros Hline;
      destruct (Hsub 0 Hph) as [Hs Hb];
      try (rewrite Hline; apply checkValidMinute_spec_number; exact Hn).
    + rewrite (Hs _ Hline). apply start_started. exact H25.
    + rewrite (Hb _ Hline). apply start_started. exact H5.
Qed.

(** The theorem at the prompt, for the six forms of a start command. *)
Lemma start_commands_witness :
  let r line :=
    @Update (spec_desk typed saves) 5 (KeyMsg KeyEnter) (typing line prompt) in
  (numeral "10" 10 /\ numeral "15" 15 /\ numeral "0" 0 /\ fits 10 /\ fits 15)
  /\ started workSession 10 5 (r "s 10") /\ started breakSession 15 5 (r "b 15")
  /\ started workSession 25 5 (r "s") /\ started breakSession 5 5 (r "b")
  /\ started workSession 25 5 (r "s 0") /\ started breakSession 5 5 (r "b 0").
Proof.
  cbv zeta.
  pose proof (fun line => @start_commands typed saves 5 (typing line prompt)) as W.
  cbv zeta in W.
  assert (Hi : forall line, phase (typing line prompt) = Idle) by reflexivity.
  assert (N10 : numeral "10" 10) by (apply number_numeral; reflexivity).
  assert (N15 : numeral "15" 15) by (apply number_numeral; reflexivity).
  assert (N0 : numeral "0" 0) by (apply number_numeral; reflexivity).
  assert (F10 : fits 10) by (unfold fits; lia).
  assert (F15 : fits 15) by (unfold fits; lia).
  split; [auto 6|].
  split; [|split; [|split; [|split; [|split]]]].
  - apply (proj1 (proj1 (W "s 10" (Hi _)) "10" 10 N10 F10)). reflexivity.
  - apply (proj2 (proj1 (W "b 15" (Hi _)) "15" 15 N15 F15)). reflexivity.
  - apply (proj1 (proj2 (W "s" (Hi _)))). reflexivity.
  - apply (proj1 (proj2 (proj2 (W "b" (Hi _))))). reflexivity.
  - apply (proj1 (proj2 (proj2 (proj2 (W "s 0" (Hi _)))) "0" N0)). reflexivity.
  - apply (proj2 (proj2 (proj2 (proj2 (W "b 0" (Hi _)))) "0" N0)). reflexivity.
Defined.

(** C9 as stated fails: [s 153722868] is a start command with a
    positive number, and the duration of the session it starts is negative,
    since 153722868 minutes are more nanoseconds than an [int64] holds. *)
Lemma minutes_overflow :
  let m := typing "s 153722868" prompt in
  let r := @Update (desk saves) 0 (KeyMsg KeyEnter) m in
  phase m = Idle /\ numeral "153722868" 153722868
  /\ snd r = CmdTick
  /\ timerDuration (fst r) = -9223371993709551616
  /\ timerDuration (fst r) <> 153722868 * Minute.
Proof.
  cbv zeta. split; [vm_compute; reflexivity|].
  split; [apply number_numeral; vm_compute; reflexivity|].
  split; [vm_compute; reflexivity|]. split; [vm_compute; reflexivity|].
  vm_compute. discriminate.
Qed.

(** C10.  On the tick that ends a work session, the completed session
    is added to the model's list and the store is asked to save that very
    list; whatever the store answers, the session stays in the list through
    all later messages, and every later list view shows it. *)
Theorem completed_session_is_listed {E : Externals}
    (now : Time) (m : model) (evs : list (Time * Msg)) :
  let new := mkSession (startTime m) now (timerDuration m) in
  let m' := fst (Update now tickMsg m) in
  inSession m = true -> opening m = false ->
  wrap64 (remainingTime m - 1 * Second) <= -4 * Second ->
  sessionType m = workSession ->
  sessions m' = (sessions m ++ [new])%list
  /\ err m' = match saveSessions (sessions m') with Some e => e | None => err m end
  /\ In new (sessions (run evs m'))
  /\ (showSession (run evs m') = true ->
      exists ss different d,
        View (run evs m') = SessionsScreen ss different d /\ In new ss).
Proof.
  cbv zeta. intros Hi Ho Hr Hw.
  destruct (completion_tick now m Hi Ho Hr Hw) as (_ & _ & Hs & _ & He).
  assert (Hin : In (mkSession (startTime m) now (timerDuration m))
                  (sessions (run evs (fst (Update now tickMsg m))))).
  { destruct (run_sessions_grow evs (fst (Update now tickMsg m))) as [rest Hg].
    rewrite Hg, Hs. apply in_or_app. left. apply in_or_app. right. left.
    reflexivity. }
  split; [exact Hs|]. split; [rewrite Hs; exact He|]. split; [exact Hin|].
  intros Hv. unfold View. rewrite Hv. eauto.
Qed.

(** The theorem at the last tick of one minute of work, with a store that
    fails, followed by the list command. *)
Lemma completed_session_is_listed_witness :
  let new := mkSession (startTime work_closing) 9 (timerDuration work_closing) in
  let m' := fst (@Update (desk (fails "disk full")) 9 tickMsg work_closing) in
  let later := @run (desk (fails "disk full")) (submit "l" 10) m' in
  (inSession work_closing = true /\ opening work_closing = false
   /\ wrap64 (remainingTime work_closing - 1 * Second) <= -4 * Second
   /\ sessionType work_closing = workSession
   /\ showSession later = true)
  /\ sessions m' = (sessions work_closing ++ [new])%list
  /\ err m' = "disk full"
  /\ In new (sessions later)
  /\ (exists ss different d,
        View later = SessionsScreen ss different d /\ In new ss).
Proof.
  cbv zeta.
  assert (H : inSession work_closing = true /\ opening work_closing = false
              /\ wrap64 (remainingTime work_closing - 1 * Second) <= -4 * Second
              /\ sessionType work_closing = workSession
              /\ showSession
                   (@run (desk (fails "disk full")) (submit "l" 10)
                      (fst (@Update (desk (fails "disk full")) 9 tickMsg
                              work_closing))) = true).
  { repeat split; try (vm_compute; reflexivity). vm_compute. discriminate. }
  split; [exact H|]. destruct H as (H1 & H2 & H3 & H4 & H5).
  destruct (@completed_session_is_listed (desk (fails "disk full")) 9 work_closing
              (submit "l" 10) H1 H2 H3 H4) as (R1 & R2 & R3 & R4).
  split; [exact R1|]. split; [exact R2|]. split; [exact R3|]. exact (R4 H5).
Defined.

(** ** Further properties of [Update] and [View] *)

Section More.
Context {E : Externals}.

(** X1.  A tick asks for the next tick exactly when it leaves the timer in a
    session: the chain of ticks goes on while a session runs, and it ends
    with the tick that completes the session and with any tick that finds no
    session. *)
Theorem tick_chain (now : Time) (m : model) :
  snd (Update now tickMsg m) = CmdTick
  <-> inSession (fst (Update now tickMsg m)) = true.
Proof.
  unfold Update, tick. fields.
  destruct (inSession m) eqn:Hi; fields.
  - destruct (opening m) eqn:Ho.
    + destruct (_ <=? _); fields; rewrite Hi; split; reflexivity.
    + destruct (Qle_bool _ (inject_Z (-4))).
      * destruct (String.eqb _ _); [destruct (saveSessions _)|]; fields;
          split; discriminate.
      * destruct (Qle_bool _ _); fields; rewrite Hi; split; reflexivity.
  - rewrite Hi. split; discriminate.
Qed.

(** X2.  While a session runs, no message changes its type, its duration or its
    start time. *)
Theorem session_identity_fixed (now : Time) (msg : Msg) (m : model) :
  inSession m = true ->
  let m' := fst (Update now msg m) in
  sessionType m' = sessionType m /\ timerDuration m' = timerDuration m
  /\ startTime m' = startTime m.
Proof.
  intros Hi. cbv zeta. destruct msg as [k|w h| |].
  - destruct (key_in_session now k m Hi) as ((_ & _ & Hd & _ & Hs & Ht & _) & _).
    auto.
  - unfold Update, windowSize. fields. destruct (_ >? _); fields; auto.
  - unfold Update, tick. fields. rewrite Hi. fields.
    destruct (opening m).
    + destruct (_ <=? _); fields; auto.
    + destruct (Qle_bool _ (inject_Z (-4))).
      * destruct (String.eqb _ _); [destruct (saveSessions _)|]; fields; auto.
      * destruct (Qle_bool _ _); fields; auto.
  - cbn. auto.
Qed.

Lemma message_log_step (now : Time) (msg : Msg) (m : model) :
  exists rest,
    sessions (fst (Update now msg m)) = (sessions m ++ rest)%list
    /\ (List.length rest <= if isTick (now, msg) then 1 else 0)%nat.
Proof.
  destruct (step_log now msg m) as [H|(Hm & _ & _ & _ & _ & H)]; cbv zeta in H.
  - exists []. rewrite H, app_nil_r. split; [reflexivity|apply Nat.le_0_l].
  - eexists. split; [exact H|]. subst msg. cbn. apply Nat.le_refl.
Qed.

(** X3.  Whatever messages arrive, the log is only appended to: the sessions
    held before a run are a prefix of the sessions held after it, and the
    run adds at most one session for each tick among its messages. *)
Theorem log_append_only (evs : list (Time * Msg)) (m : model) :
  exists rest,
    sessions (run evs m) = (sessions m ++ rest)%list
    /\ (List.length rest <= tickCount evs)%nat.
Proof.
  induction evs as [|ev evs IH] using rev_ind.
  - exists []. cbn. rewrite app_nil_r. split; [reflexivity|apply Nat.le_refl].
  - rewrite run_app. cbn [run fold_left]. destruct IH as (rest & IH & Hlen).
    destruct (message_log_step (fst ev) (snd ev) (run evs m)) as (r1 & H1 & Hl1).
    exists (rest ++ r1)%list. split.
    + rewrite H1, IH, app_assoc. reflexivity.
    + unfold tickCount in *. rewrite filter_app, !length_app. cbn [filter].
      replace (isTick (fst ev, snd ev)) with (isTick ev) in Hl1
        by (destruct ev; reflexivity).
      destruct (isTick ev); cbn [List.length] in *; lia.
Qed.
End More.

Section Timeline.
Context {E : Externals}.

Lemma tick_view_fields (now : Time) (m : model) :
  let m' := fst (Update now tickMsg m) in
  showSession m' = showSession m /\ printDifferentDate m' = printDifferentDate m
  /\ datePrint m' = datePrint m
  /\ (inSession m = false -> percent m' = percent m /\ err m' = err m).
Proof.
  cbv zeta. unfold Update, tick. fields.
  destruct (inSession m) eqn:Hi; fields.
  - destruct (opening m).
    + destruct (_ <=? _); fields; repeat split; discriminate.
    + destruct (Qle_bool _ (inject_Z (-4))).
      * destruct (String.eqb _ _); [destruct (saveSessions _)|]; fields;
          repeat split; discriminate.
      * destruct (Qle_bool _ _); fields; repeat split; discriminate.
  - repeat split.
Qed.

Lemma ticks_view_fields (nows : list Time) (m : model) :
  showSession (ticks nows m) = showSession m.
Proof.
  induction nows as [|t nows IH] using rev_ind; [reflexivity|].
  rewrite ticks_snoc. destruct (tick_view_fields t (ticks nows m)) as (H & _).
  cbv zeta in H. congruence.
Qed.

Lemma idle_ticks_percent (nows : list Time) (m : model) :
  inSession m = false -> percent (ticks nows m) = percent m.
Proof.
  intros Hi. induction nows as [|t nows IH] using rev_ind; [reflexivity|].
  rewrite ticks_snoc.
  destruct (idle_ticks nows m Hi) as [Hi' _].
  destruct (tick_view_fields t (ticks nows m)) as (_ & _ & _ & H).
  destruct (H Hi') as [Hp _]. congruence.
Qed.

(** The course of a session that fits, by the number of ticks since its
    start. *)
Lemma session_course (ty : string) (n : Z) (now0 : Time) (m0 : model)
    (nows : list Time) :
  let s := ticks nows (start ty n now0 m0) in
  let k := Z.of_nat (List.length nows) in
  fits n ->
  (k <= 60 * n + 6 ->
     remainingTime s = n * Minute + 3 * Second - k * Second
     /\ sessions s = sessions m0)
  /\ (k < 3 -> phase s = Opening)
  /\ (3 <= k < 60 * n + 3 -> phase s = Active)
  /\ (60 * n + 3 <= k < 60 * n + 7 -> phase s = Closing)
  /\ (k = 60 * n + 7 ->
      phase s = Idle
      /\ sessions s
         = (sessions m0 ++ logged ty (mkSession now0 (last nows 0) (n * Minute)))%list)
  /\ (60 * n + 7 <= k -> phase s = Idle).
Proof.
  cbv zeta. intros Hf.
  pose proof (fits_representable n Hf) as Hc.
  pose proof (start_running ty n now0 m0 Hf) as H0.
  set (s0 := start ty n now0 m0) in *.
  set (k := Z.of_nat (List.length nows)).
  assert (Hrun : k <= 60 * n + 6 -> running s0 (60 * n) k (ticks nows s0))
    by (intros; apply running_ticks; auto).
  assert (Hph : k <= 60 * n + 6 ->
                phase (ticks nows s0)
                = if k <? 3 then Opening
                  else if 60 * n + 3 <=? k then Closing else Active)
    by (intros H; apply (running_phase s0 (60 * n)); auto).
  split; [|split; [|split; [|split; [|split]]]]; intros Hk.
  - destruct (Hrun Hk) as [Hs _ Hr _ _ _ _ _ _]. split; [|exact Hs].
    rewrite Hr. unfold Minute, time_Duration. ring.
  - rewrite Hph by (destruct Hf; lia).
    destruct (Z.ltb_spec k 3); [reflexivity | lia].
  - rewrite Hph by lia.
    destruct (Z.ltb_spec k 3); [lia|].
    destruct (Z.leb_spec (60 * n + 3) k); [lia | reflexivity].
  - rewrite Hph by lia.
    destruct (Z.ltb_spec k 3); [destruct Hf; lia|].
    destruct (Z.leb_spec (60 * n + 3) k); [reflexivity | lia].
  - split; [apply phase_Idle; apply (running_over s0 (60 * n)); auto; fold k; lia|].
    subst k.
    destruct nows as [|t0 rest] using rev_ind;
      [cbn [List.length Z.of_nat] in Hk; destruct Hf; lia|].
    clear IHrest. rewrite length_app, Nat2Z.inj_add in Hk.
    cbn [List.length Z.of_nat Pos.of_succ_nat] in Hk.
    rewrite ticks_snoc, last_last.
    pose proof (running_ticks s0 (60 * n) rest Hc H0 ltac:(lia)) as Hr.
    replace (Z.of_nat (List.length rest)) with (60 * n + 6) in Hr by lia.
    destruct (running_last s0 (60 * n) _ t0 Hc Hr) as (_&_&_&_&_&_&_&Hs&_).
    rewrite Hs. unfold logged.
    change (sessionType s0) with ty. change (startTime s0) with now0.
    change (sessions s0) with (sessions m0).
    replace (60 * n * Second) with (n * Minute)
      by (unfold Minute, time_Duration; ring).
    destruct (String.eqb ty workSession); [reflexivity|].
    rewrite app_nil_r. reflexivity.
  - apply phase_Idle. apply (running_over s0 (60 * n)); auto.
Qed.

(** X4.  The course of a session of [n] minutes, [n] from 1 to 153722867, of
    either type, by the number [k] of ticks since its start.  Up to tick
    [60 * n + 6] the time left is [n] minutes and 3 seconds less [k] seconds
    and the log is as it was at the start.  The phase is Opening before the
    third tick, Active from the third tick to before tick [60 * n + 3],
    Closing for the four ticks from there, and Idle from tick [60 * n + 7]
    on.  Tick [60 * n + 7] appends the session to the log when it is a work
    session, and nothing when it is a break. *)
Theorem session_timeline (ty : string) (n : Z) (now0 : Time) (m0 : model)
    (nows : list Time) :
  let s := ticks nows (start ty n now0 m0) in
  let k := Z.of_nat (List.length nows) in
  fits n ->
  (k <= 60 * n + 6 ->
     remainingTime s = n * Minute + 3 * Second - k * Second
     /\ sessions s = sessions m0)
  /\ (k < 3 -> phase s = Opening)
  /\ (3 <= k < 60 * n + 3 -> phase s = Active)
  /\ (60 * n + 3 <= k < 60 * n + 7 -> phase s = Closing)
  /\ (k = 60 * n + 7 ->
      phase s = Idle
      /\ sessions s
         = (sessions m0 ++ logged ty (mkSession now0 (last nows 0) (n * Minute)))%list)
  /\ (60 * n + 7 <= k -> phase s = Idle).
Proof.
  exact (session_course ty n now0 m0 nows).
Qed.

Lemma shown_bounds (c k : Z) :
  1 <= c -> 0 <= k -> (0 <= shown c k)%Q /\ (shown c k < 1)%Q.
Proof.
  intros Hc Hk. unfold shown. cbv zeta.
  destruct (Z.leb_spec (Z.min k (c + 2)) 3) as [|Hj].
  - split; [apply Qle_refl | reflexivity].
  - rewrite !Milliseconds_Second. split.
    + apply fraction_nonneg; lia.
    + apply fraction_lt_1; lia.
Qed.

(** X5.  However many ticks a session of [n] minutes has seen, [n] from 1 to
    153722867, the fraction drawn by the progress bar is at least 0 and
    below 1. *)
Theorem percent_bounds (ty : string) (n : Z) (now0 : Time) (m0 : model)
    (nows : list Time) :
  fits n ->
  (0 <= percent (ticks nows (start ty n now0 m0)))%Q
  /\ (percent (ticks nows (start ty n now0 m0)) < 1)%Q.
Proof.
  intros Hf.
  pose proof (fits_representable n Hf) as Hc.
  pose proof (start_running ty n now0 m0 Hf) as H0.
  set (s0 := start ty n now0 m0) in *.
  assert (Hc1 : 1 <= 60 * n) by (destruct Hf; lia).
  destruct (Z.le_gt_cases (Z.of_nat (List.length nows)) (60 * n + 6)) as [Hk|Hk].
  - destruct (running_ticks s0 (60 * n) nows Hc H0 Hk) as [_ _ _ _ _ _ _ _ Hp].
    rewrite Hp. apply shown_bounds; lia.
  - rewrite <- (firstn_skipn (Z.to_nat (60 * n + 6)) nows).
    assert (Hl1 : Z.of_nat (List.length (firstn (Z.to_nat (60 * n + 6)) nows))
                  = 60 * n + 6) by (rewrite length_firstn; lia).
    destruct (skipn (Z.to_nat (60 * n + 6)) nows) as [|t l2] eqn:Hsk.
    + apply (f_equal (@List.length Time)) in Hsk. rewrite length_skipn in Hsk.
      cbn [List.length] in Hsk. lia.
    + change (t :: l2) with ([t] ++ l2)%list. rewrite app_assoc, ticks_app.
      pose proof (running_ticks s0 (60 * n) (firstn (Z.to_nat (60 * n + 6)) nows)
                    Hc H0) as Hr.
      rewrite Hl1 in Hr. specialize (Hr ltac:(lia)).
      rewrite ticks_snoc.
      destruct (running_last s0 (60 * n) _ t Hc Hr) as (_&Hi&_&_&_&_&Hp&_).
      rewrite (idle_ticks_percent l2 _ Hi), Hp. apply shown_bounds; lia.
Qed.
End Timeline.

Lemma Seconds_whole (c : Z) :
  Seconds (c * Second) = (inject_Z c + inject_Z 0 / inject_Z 1000000000)%Q.
Proof.
  unfold Seconds. rewrite Z.quot_mul, Z.rem_mul by discriminate. reflexivity.
Qed.

Lemma Minutes_whole (n : Z) : Qeq (Minutes (n * Minute)) (inject_Z n).
Proof.
  unfold Minutes. rewrite Z.quot_mul, Z.rem_mul by discriminate.
  unfold Qeq, Qplus, Qdiv, Qmult, Qinv, inject_Z. cbn [Qnum Qden].
  rewrite ?Pos2Z.inj_mul. lia.
Qed.

Lemma countdown (a c : Z) :
  int_of (Seconds (a * Second) - Seconds (c * Second)) = a - c.
Proof.
  rewrite !Seconds_whole.
  unfold int_of, Qminus, Qplus, Qopp, Qdiv, Qmult, Qinv, inject_Z.
  cbn [Qnum Qden].
  change (Z.pos (1 * (1 * 1000000000) * (1 * (1 * 1000000000))))
    with 1000000000000000000.
  change (Z.pos (1 * (1 * 1000000000))) with 1000000000.
  change (Z.pos (1 * 1000000000)) with 1000000000.
  match goal with
  | |- ?x ÷ _ = _ => replace x with ((a - c) * 1000000000000000000) by ring
  end.
  apply Z.quot_mul. discriminate.
Qed.

Section Screens.
Context {E : Externals}.

(** X6.  What [View] shows along a session of [n] minutes started with the list
    view closed: in Opening the type, the minutes of the session and the
    countdown [3 - k]; in Active the type, the time left and the fraction;
    in Closing the closing message of the type; and from tick [60 * n + 7]
    on the prompt. *)
Theorem session_screens (ty : string) (n : Z) (now0 : Time) (m0 : model)
    (nows : list Time) :
  let s := ticks nows (start ty n now0 m0) in
  let k := Z.of_nat (List.length nows) in
  fits n -> showSession m0 = false ->
  (k < 3 -> View s = OpeningScreen ty (Minutes (n * Minute)) (3 - k))
  /\ (3 <= k < 60 * n + 3 ->
      View s = TimerScreen ty (n * Minute + 3 * Second - k * Second) (percent s))
  /\ (60 * n + 3 <= k < 60 * n + 7 -> View s = ClosingScreen ty)
  /\ (60 * n + 7 <= k -> View s = PromptScreen (textarea s) (err s)).
Proof.
  cbv zeta. intros Hf Hv.
  destruct (session_course ty n now0 m0 nows Hf) as (Hr & Ho & Ha & Hc & _ & Hi).
  cbv zeta in *.
  pose proof (fits_representable n Hf) as Hrep.
  pose proof (start_running ty n now0 m0 Hf) as H0.
  set (s0 := start ty n now0 m0) in *.
  set (k := Z.of_nat (List.length nows)) in *.
  assert (Hshow : showSession (ticks nows s0) = false)
    by (rewrite ticks_view_fields; exact Hv).
  assert (Hn : 60 * n * Second = n * Minute)
    by (unfold Minute, time_Duration; ring).
  assert (Hrun : k <= 60 * n + 6 -> running s0 (60 * n) k (ticks nows s0))
    by (intros; apply running_ticks; auto).
  unfold View. rewrite Hshow.
  split; [|split; [|split]]; intros Hk.
  - destruct (Hrun ltac:(destruct Hf; lia)) as [_ Hd Hrem _ Hty Hin Hop _ _].
    rewrite Hin, Hop. cbn [negb].
    replace (k <? 3) with true by (symmetry; apply Z.ltb_lt; lia).
    rewrite Hty, Hd, Hrem, countdown, Hn.
    change (sessionType s0) with ty. f_equal. lia.
  - destruct (Hrun ltac:(lia)) as [_ _ Hrem _ Hty Hin Hop Hcl _].
    rewrite Hin, Hop, Hcl. cbn [negb].
    replace (k <? 3) with false by (symmetry; apply Z.ltb_ge; lia).
    replace (60 * n + 3 <=? k) with false by (symmetry; apply Z.leb_gt; lia).
    rewrite Hty, Hrem. change (sessionType s0) with ty. f_equal.
    unfold Minute, time_Duration. ring.
  - destruct (Hrun ltac:(lia)) as [_ _ _ _ Hty Hin Hop Hcl _].
    rewrite Hin, Hop, Hcl. cbn [negb].
    replace (k <? 3) with false by (symmetry; apply Z.ltb_ge; destruct Hf; lia).
    replace (60 * n + 3 <=? k) with true by (symmetry; apply Z.leb_le; lia).
    rewrite Hty. reflexivity.
  - specialize (Hi Hk). apply phase_Idle in Hi. rewrite Hi. reflexivity.
Qed.

(** X7.  Two work sessions, the second started after the last tick of the first
    and each run to its end, leave their two sessions at the end of the log
    in the order they were run, each with its start, the clock reading of
    its last tick, and its duration. *)
Theorem two_work_sessions (n1 n2 : Z) (t1 t2 : Time) (m0 : model)
    (nows1 nows2 : list Time) :
  let first := ticks nows1 (start workSession n1 t1 m0) in
  let second := ticks nows2 (start workSession n2 t2 first) in
  fits n1 -> fits n2 ->
  Z.of_nat (List.length nows1) = 60 * n1 + 7 ->
  Z.of_nat (List.length nows2) = 60 * n2 + 7 ->
  phase second = Idle
  /\ sessions second
     = (sessions m0 ++ [mkSession t1 (last nows1 0) (n1 * Minute);
                        mkSession t2 (last nows2 0) (n2 * Minute)])%list.
Proof.
  cbv zeta. intros Hf1 Hf2 Hk1 Hk2.
  destruct (session_course workSession n1 t1 m0 nows1 Hf1) as (_&_&_&_&H1&_).
  destruct (session_course workSession n2 t2
              (ticks nows1 (start workSession n1 t1 m0)) nows2 Hf2)
    as (_&_&_&_&H2&_).
  cbv zeta in *. destruct (H1 Hk1) as [_ Hs1]. destruct (H2 Hk2) as [Hp2 Hs2].
  split; [exact Hp2|]. rewrite Hs2, Hs1. unfold logged. cbn [String.eqb].
  change (String.eqb workSession workSession) with true. cbn iota.
  rewrite <- app_assoc. reflexivity.
Qed.
End Screens.

Section MoreKeys.
Context {E : Externals}.

Lemma key_idle (now : Time) (k : Key) (m : model) :
  inSession m = false ->
  Update now (KeyMsg k) m
  = let m0 := set_textarea (textarea_Update (KeyMsg k) (textarea m)) m in
    if showSession m && Matches k Stop
    then (textarea_Reset (set_showSession false m0), CmdNil)
    else
      let m1 := set_err "" m0 in
      if (key_Type k =? key_Type KeyCtrlC) || (key_Type k =? key_Type KeyEsc)
      then (m1, CmdQuit)
      else if key_Type k =? 113 then (m1, CmdNil)
      else if key_Type k =? key_Type KeyEnter then enter now m1
      else (m1, CmdNil).
Proof.
  intros Hi. unfold Update, keyMsg. fields. rewrite Hi. reflexivity.
Qed.

Lemma key_active (now : Time) (k : Key) (m : model) :
  phase m = Active ->
  Update now (KeyMsg k) m
  = let m0 := set_textarea (textarea_Update (KeyMsg k) (textarea m)) m in
    if Matches k Stop then (textarea_Reset (set_inSession false m0), CmdNil)
    else if Matches k Quit then (m0, CmdQuit)
    else
      let m1 := set_err "" m0 in
      if (key_Type k =? key_Type KeyCtrlC) || (key_Type k =? key_Type KeyEsc)
      then (m1, CmdQuit)
      else if key_Type k =? 113 then (m1, CmdNil)
      else if key_Type k =? key_Type KeyEnter then enter now m1
      else (m1, CmdNil).
Proof.
  intros H. apply phase_Active in H. destruct H as (Hi & Ho & Hc).
  unfold Update, keyMsg. fields. rewrite Hi, Ho, Hc. cbn [andb orb].
  destruct (Matches k Stop); [reflexivity|].
  destruct (Matches k Quit); [reflexivity|].
  rewrite andb_false_r. reflexivity.
Qed.

Lemma enter_no_tick_untouched (now : Time) (m : model) :
  snd (enter now m) <> CmdTick ->
  untouched m (fst (enter now m)) /\ inSession (fst (enter now m)) = inSession m.
Proof.
  destruct (inSession m) eqn:Hi.
  - intros _. destruct (enter_in_session now m Hi) as (H1 & H2 & _). auto.
  - unfold enter, startCommand, listCommand.
    set (line := textarea m).
    destruct (String.eqb line "q"); [intros _; split; [apply untouched_textarea|exact Hi]|].
    destruct (HasPrefix line "s").
    { destruct (reason (checkValidMinute line)); destruct (ok (checkValidMinute line));
        fields; rewrite ?Hi; fields; intros H; try congruence;
        unfold untouched; fields; auto 12. }
    destruct (HasPrefix line "b").
    { destruct (reason (checkValidMinute line)); destruct (ok (checkValidMinute line));
        fields; rewrite ?Hi; fields; intros H; try congruence;
        unfold untouched; fields; auto 12. }
    destruct (HasPrefix line "l").
    { intros _. ifs; fields; unfold untouched; fields; auto 12. }
    intros _. fields. unfold untouched. fields. auto 12.
Qed.

(** X8.  [Update] asks the program to quit only on a key press, and only in Idle
    or Active; it then leaves the timer and the log as they are. *)
Theorem quit_only_from_keys (now : Time) (msg : Msg) (m : model) :
  snd (Update now msg m) = CmdQuit ->
  (exists k, msg = KeyMsg k)
  /\ (phase m = Idle \/ phase m = Active)
  /\ timer (fst (Update now msg m)) = timer m
  /\ sessions (fst (Update now msg m)) = sessions m.
Proof.
  intros Hq. destruct msg as [k|w h| |].
  - split; [eauto|].
    destruct (phase m) eqn:Hph.
    + split; [auto|]. pose proof (proj1 (phase_Idle m) Hph) as Hi.
      rewrite key_idle in * by exact Hi. cbv zeta in *.
      set (m0 := set_textarea _ m) in *.
      destruct (showSession m && Matches k Stop); [discriminate Hq|].
      destruct (_ || _); [fields; auto|].
      destruct (key_Type k =? 113); [discriminate Hq|].
      destruct (key_Type k =? key_Type KeyEnter); [|discriminate Hq].
      destruct (enter_no_tick_untouched now (set_err "" m0)) as [Hu Hin];
        [rewrite Hq; discriminate|].
      split; [|apply Hu].
      apply timer_untouched; [exact Hu | exact Hin].
    + rewrite key_ignored in Hq by auto. discriminate Hq.
    + split; [auto|].
      pose proof (proj1 (phase_Active m) Hph) as (Hi & _).
      destruct (key_in_session now k m Hi) as (Hu & _ & [Hin|(_ & Hs & _)]).
      * split; [apply timer_untouched; [exact Hu | congruence] | apply Hu].
      * rewrite key_active in Hq by exact Hph. cbv zeta in Hq.
        rewrite Hs in Hq. discriminate Hq.
    + rewrite key_ignored in Hq by auto. discriminate Hq.
  - discriminate Hq.
  - exfalso. revert Hq. unfold Update, tick. fields.
    destruct (inSession m); fields; [|discriminate].
    destruct (opening m).
    + destruct (_ <=? _); discriminate.
    + destruct (Qle_bool _ (inject_Z (-4))); [discriminate|].
      destruct (Qle_bool _ _); discriminate.
  - discriminate Hq.
Qed.

(** X9.  The keys that quit.  In Active every key of the Quit binding does; in
    Idle and in Active so do ctrl+c, esc, and enter on the line [q].  At the
    prompt typed characters never quit (a [q] there is text), and in Opening
    and Closing no key does. *)
Theorem quit_keys (now : Time) (k : Key) (m : model) :
  let line := textarea_Update (KeyMsg k) (textarea m) in
  let r := Update now (KeyMsg k) m in
  (phase m = Active -> Matches k Quit = true -> snd r = CmdQuit)
  /\ (phase m = Idle \/ phase m = Active ->
      k = KeyCtrlC \/ k = KeyEsc \/ (k = KeyEnter /\ line = "q") ->
      snd r = CmdQuit)
  /\ (phase m = Idle -> forall runes, k = KeyRunes runes -> snd r = CmdNil)
  /\ (phase m = Opening \/ phase m = Closing -> snd r = CmdNil).
Proof.
  cbv zeta. split; [|split; [|split]].
  - intros Hph Hq. rewrite key_active by exact Hph. cbv zeta.
    destruct (Matches k Stop) eqn:Hs; [|rewrite Hq; reflexivity].
    exfalso. unfold Matches, Stop, Quit in *. cbn [existsb] in *.
    rewrite orb_false_r in Hs. apply String.eqb_eq in Hs. rewrite Hs in Hq.
    discriminate Hq.
  - intros Hph Hk.
    assert (Hcases : k = KeyCtrlC \/ k = KeyEsc \/ k = KeyEnter) by tauto.
    destruct Hph as [Hph|Hph].
    + rewrite key_idle by (apply phase_Idle; exact Hph). cbv zeta.
      destruct Hk as [->|[->|[-> Hl]]].
      * rewrite andb_false_r. reflexivity.
      * rewrite andb_false_r. reflexivity.
      * rewrite andb_false_r. cbn [key_Type Z.eqb orb Pos.eqb].
        unfold enter. fields. rewrite Hl. reflexivity.
    + rewrite key_active by exact Hph. cbv zeta.
      destruct Hk as [->|[->|[-> Hl]]]; try reflexivity.
      cbn [Matches key_String Stop Quit existsb String.eqb Ascii.eqb Bool.eqb
           andb orb key_Type Z.eqb Pos.eqb].
      unfold enter. fields. rewrite Hl. reflexivity.
  - intros Hph runes ->. rewrite key_idle by (apply phase_Idle; exact Hph).
    cbv zeta. destruct (showSession m && _); reflexivity.
  - intros Hph. rewrite key_ignored by exact Hph. reflexivity.
Qed.
End MoreKeys.

Section Prompt.
Context {E : Externals}.

(** X10.  The Stop key while the list of sessions is shown.  In Active the first
    press ends the session and leaves the list on the screen, and the second
    press closes the list and empties the input.  In Idle one press closes
    the list and empties the input; the error text, the timer and the log
    stay as they are. *)
Theorem stop_with_list_open (now now' : Time) (k : Key) (m : model) :
  let m1 := fst (Update now (KeyMsg k) m) in
  let m2 := fst (Update now' (KeyMsg k) m1) in
  Matches k Stop = true -> showSession m = true ->
  (phase m = Active ->
     phase m1 = Idle /\ showSession m1 = true
     /\ View m1 = SessionsScreen (sessions m) (printDifferentDate m) (datePrint m)
     /\ phase m2 = Idle /\ showSession m2 = false /\ textarea m2 = "")
  /\ (phase m = Idle ->
      phase m1 = Idle /\ showSession m1 = false /\ textarea m1 = ""
      /\ err m1 = err m /\ timer m1 = timer m /\ sessions m1 = sessions m).
Proof.
  cbv zeta. intros Hs Hv. split; intros Hph.
  - rewrite (key_active now k m Hph). cbv zeta. rewrite Hs. cbn [fst].
    set (m1 := textarea_Reset _).
    assert (Hi1 : inSession m1 = false) by reflexivity.
    assert (Hv1 : showSession m1 = true) by exact Hv.
    assert (H2 : Update now' (KeyMsg k) m1
                 = (textarea_Reset
                      (set_showSession false
                         (set_textarea (textarea_Update (KeyMsg k) (textarea m1)) m1)),
                    CmdNil)).
    { rewrite (key_idle now' k m1 Hi1). cbv zeta. rewrite Hv1, Hs. reflexivity. }
    rewrite H2. cbn [fst].
    split; [apply phase_Idle; exact Hi1|]. split; [exact Hv1|].
    split; [unfold View; rewrite Hv1; reflexivity|].
    split; [apply phase_Idle; reflexivity|]. split; reflexivity.
  - pose proof (proj1 (phase_Idle m) Hph) as Hi.
    rewrite (key_idle now k m Hi). cbv zeta. rewrite Hv, Hs. cbn [andb fst].
    split; [apply phase_Idle; exact Hi|]. repeat split.
Qed.

(** X11.  At the prompt a key other than enter, which is not Stop closing the
    list view, clears the error text; it never starts the chain of ticks and
    leaves the timer, the log and the list view as they are. *)
Theorem key_clears_error (now : Time) (k : Key) (m : model) :
  let r := Update now (KeyMsg k) m in
  phase m = Idle -> showSession m && Matches k Stop = false ->
  k <> KeyEnter ->
  err (fst r) = "" /\ snd r <> CmdTick
  /\ timer (fst r) = timer m /\ sessions (fst r) = sessions m
  /\ showSession (fst r) = showSession m.
Proof.
  cbv zeta. intros Hph Hs Hk.
  rewrite key_idle by (apply phase_Idle; exact Hph). cbv zeta. rewrite Hs.
  assert (Hty : (key_Type k =? key_Type KeyEnter) = false)
    by (destruct k; try reflexivity; congruence).
  rewrite Hty.
  destruct (_ || _); [|destruct (_ =? 113)]; fields; repeat split; discriminate.
Qed.

(** X12.  Enter, in Idle or Active, on a line that is not [q] and starts with
    none of [s], [b] and [l]: the error text is Invalid command, the input
    is emptied, no command is returned, and the timer, the log and the list
    view stay as they are. *)
Theorem unknown_command (now : Time) (m : model) :
  let line := textarea_Update (KeyMsg KeyEnter) (textarea m) in
  let r := Update now (KeyMsg KeyEnter) m in
  phase m = Idle \/ phase m = Active ->
  line <> "q" -> HasPrefix line "s" = false -> HasPrefix line "b" = false ->
  HasPrefix line "l" = false ->
  err (fst r) = "Invalid command" /\ textarea (fst r) = "" /\ snd r = CmdNil
  /\ timer (fst r) = timer m /\ sessions (fst r) = sessions m
  /\ showSession (fst r) = showSession m.
Proof.
  cbv zeta. intros Hph Hq Hs Hb Hl.
  rewrite enter_reached by exact Hph. unfold enter. fields.
  apply String.eqb_neq in Hq. rewrite Hq, Hs, Hb, Hl. fields.
  repeat split.
Qed.

(** X13.  A start line, for work or for a break, that the minute check rejects
    starts nothing, in Idle as in Active: no command is returned and the
    timer and the log stay as they are.  The error text is what the check
    reported, and empty when it reported nothing. *)
Theorem rejected_start (now : Time) (m : model) :
  let line := textarea_Update (KeyMsg KeyEnter) (textarea m) in
  let r := Update now (KeyMsg KeyEnter) m in
  phase m = Idle \/ phase m = Active ->
  HasPrefix line "s" = true \/ HasPrefix line "b" = true ->
  ok (checkValidMinute line) = false ->
  snd r = CmdNil /\ timer (fst r) = timer m /\ sessions (fst r) = sessions m
  /\ err (fst r) = match reason (checkValidMinute line) with
                   | Some e => e
                   | None => ""
                   end.
Proof.
  cbv zeta. intros Hph Hline Hok.
  set (line := textarea_Update (KeyMsg KeyEnter) (textarea m)) in *.
  rewrite enter_reached by exact Hph. fold line. unfold enter. fields.
  assert (Hq : String.eqb line "q" = false).
  { apply String.eqb_neq. intros Hx. rewrite Hx in Hline.
    destruct Hline as [H|H]; discriminate H. }
  rewrite Hq.
  assert (Hgen : forall ty dflt m1,
             timer m1 = timer m -> sessions m1 = sessions m -> err m1 = "" ->
             snd (startCommand ty dflt line now m1) = CmdNil
             /\ timer (fst (startCommand ty dflt line now m1)) = timer m
             /\ sessions (fst (startCommand ty dflt line now m1)) = sessions m
             /\ err (fst (startCommand ty dflt line now m1))
                = match reason (checkValidMinute line) with
                  | Some e => e
                  | None => ""
                  end).
  { intros ty dflt m1 Ht Hse He. unfold startCommand. rewrite Hok. cbn [negb].
    destruct (reason (checkValidMinute line)); fields; auto. }
  destruct (HasPrefix line "s").
  - apply Hgen; reflexivity.
  - destruct Hline as [H|H]; [discriminate H|]. rewrite H.
    apply Hgen; reflexivity.
Qed.

(** X14.  A window of width [Width] sets the progress bar to [Width - 8] cells,
    80 at most; the bar gets a negative width when the window is narrower
    than 8.  No command is returned, and the timer, the log, the list view
    and the error text stay as they are. *)
Theorem window_size (now : Time) (Width Height : Z) (m : model) :
  let r := Update now (WindowSizeMsg Width Height) m in
  min_int64 + 8 <= Width <= max_int64 ->
  progress_Width (fst r) = Z.min (Width - 8) maxWidth
  /\ progress_Width (fst r) <= maxWidth
  /\ (Width < 8 -> progress_Width (fst r) < 0)
  /\ snd r = CmdNil /\ timer (fst r) = timer m /\ sessions (fst r) = sessions m
  /\ showSession (fst r) = showSession m /\ err (fst r) = err m.
Proof.
  cbv zeta. intros HW. unfold Update, windowSize. fields.
  change (padding * 2) with 4. change maxWidth with 80.
  replace (Width - 4 - 4) with (Width - 8) by ring.
  rewrite wrap64_small by (unfold min_int64, max_int64 in *; lia).
  destruct (Z.gtb_spec (Width - 8) 80); fields;
    (split; [lia|]); (split; [lia|]); (split; [lia|]); repeat split.
Qed.
End Prompt.

Lemma TrimSpace_between_digits (a c : ascii) (s r r' : string) :
  s = String a r -> s = r' ++ String c "" ->
  isDigit a = true -> isDigit c = true -> TrimSpace s = s.
Proof.
  intros Hs Hs' Ha Hc. unfold TrimSpace.
  rewrite Hs at 1. rewrite trimFront_digit by exact Ha. rewrite <- Hs.
  rewrite Hs' at 1. rewrite rev_string_app. cbn [rev_string].
  rewrite trimFront_digit by exact Hc.
  change (String c (rev_string "" r'))
    with (rev_string (rev_string "" r') (String c "")).
  rewrite <- rev_string_app, <- Hs'.
  apply rev_string_involutive.
Qed.

Lemma TrimSpace_iso (d : Date) : calendar d -> TrimSpace (iso d) = iso d.
Proof.
  intros (Hy & Hm & Hd1 & Hd2).
  assert (Hd31 : day d <= 31).
  { destruct Hd2 as [Hd2|(_ & Hd2 & _)]; [|lia].
    assert (H : month d = 1 \/ month d = 2 \/ month d = 3 \/ month d = 4
                \/ month d = 5 \/ month d = 6 \/ month d = 7 \/ month d = 8
                \/ month d = 9 \/ month d = 10 \/ month d = 11 \/ month d = 12)
      by lia.
    repeat (destruct H as [H|H]; [rewrite H in Hd2; cbn in Hd2; lia|]).
    rewrite H in Hd2. cbn in Hd2. lia. }
  unfold iso, four_digits, two_digits. cbn [String.append].
  eapply (TrimSpace_between_digits _ (digitChar (day d mod 10)) _ _
            (String _ (String _ (String _ (String _ (String _ (String _
              (String _ (String _ (String _ ""))))))))));
    [reflexivity | reflexivity | |].
  - apply digit_digitChar. Z.div_mod_to_equations. lia.
  - apply digit_digitChar. Z.div_mod_to_equations. lia.
Qed.

Section Dates.
Context {E : Externals}.

(** X15.  Enter, in Idle or Active, on [l], a space and the ISO notation of a
    calendar date opens the list view for that date, with no error text:
    [View] shows the sessions of the log for the date. *)
Theorem list_for_date (now : Time) (m : model) (d : Date) :
  let line := textarea_Update (KeyMsg KeyEnter) (textarea m) in
  let r := Update now (KeyMsg KeyEnter) m in
  phase m = Idle \/ phase m = Active -> calendar d -> line = "l " ++ iso d ->
  showSession (fst r) = true /\ printDifferentDate (fst r) = true
  /\ datePrint (fst r) = d /\ err (fst r) = ""
  /\ View (fst r) = SessionsScreen (sessions m) true d.
Proof.
  cbv zeta. intros Hph Hd Hline.
  rewrite enter_reached by exact Hph.
  rewrite enter_list by (fields; rewrite Hline; reflexivity).
  fields. rewrite Hline. unfold listCommand, from2. cbn [String.append from1].
  assert (Hne : String.eqb (String "l" (String " " (iso d))) "l" = false)
    by reflexivity.
  rewrite Hne.
  assert (Hsp : HasPrefix (String " " (iso d)) " " = true)
    by (apply HasPrefix_char; eauto).
  rewrite Hsp. cbn [negb].
  rewrite (TrimSpace_iso d Hd).
  rewrite (proj2 (Parse_DateOnly_iso (iso d) d) (conj Hd eq_refl)).
  fields. unfold View. fields. repeat split.
Qed.

Lemma opening_tick (now : Time) (m : model) :
  inSession m = true -> opening m = true ->
  let r' := wrap64 (remainingTime m - 1 * Second) in
  let m' := fst (Update now tickMsg m) in
  remainingTime m' = r'
  /\ opening m' = negb (Milliseconds r' <=? Milliseconds (timerDuration m))
  /\ inSession m' = true /\ closing m' = closing m
  /\ sessions m' = sessions m /\ sessionType m' = sessionType m
  /\ timerDuration m' = timerDuration m /\ startTime m' = startTime m.
Proof.
  intros Hi Ho. cbv zeta. unfold Update, tick. fields. rewrite Hi, Ho. fields.
  destruct (_ <=? _); fields; repeat split; assumption.
Qed.

(** X16.  A work session started for so many minutes that its duration wraps
    around in 64 bits to a negative [d], at most -3 seconds: the three ticks
    of the opening bring it to Active, and the fourth tick ends it and
    appends a session of the negative duration [d] to the log. *)
Theorem negative_duration_session (n : Z) (now0 t1 t2 t3 t4 : Time) (m0 : model) :
  let d := wrap64 (n * Minute) in
  let s := ticks [t1; t2; t3; t4] (start workSession n now0 m0) in
  min_int64 + Second <= d <= -3 * Second ->
  phase (ticks [t1; t2; t3] (start workSession n now0 m0)) = Active
  /\ phase s = Idle
  /\ sessions s = (sessions m0 ++ [mkSession now0 t4 d])%list
  /\ d < 0.
Proof.
  cbv zeta. intros Hd.
  set (d := wrap64 (n * Minute)) in *.
  assert (HS : Second = 1000000000) by reflexivity.
  assert (HM : Millisecond = 1000000) by reflexivity.
  unfold min_int64 in Hd. rewrite HS in Hd.
  assert (W : forall y, d - Second <= y <= d + 3 * Second -> wrap64 y = y).
  { intros y Hy. apply wrap64_small. unfold min_int64, max_int64.
    rewrite HS in Hy. lia. }
  assert (Q : forall j, 1 <= j <= 2 ->
                (Milliseconds (d + j * Second) <=? Milliseconds d) = false).
  { intros j Hj. apply Z.leb_gt. unfold Milliseconds. rewrite HS, HM.
    Z.to_euclidean_division_equations. lia. }
  set (s0 := start workSession n now0 m0).
  assert (H0 : remainingTime s0 = d + 3 * Second /\ opening s0 = true
               /\ inSession s0 = true /\ closing s0 = false
               /\ sessions s0 = sessions m0 /\ sessionType s0 = workSession
               /\ timerDuration s0 = d /\ startTime s0 = now0).
  { unfold s0, start. fields. fold d. rewrite W by (rewrite HS; lia).
    repeat split. }
  change [t1; t2; t3; t4] with ((([t1] ++ [t2]) ++ [t3]) ++ [t4])%list.
  change [t1; t2; t3] with (([t1] ++ [t2]) ++ [t3])%list.
  rewrite !ticks_snoc.
  change (ticks [t1] s0) with (fst (Update t1 tickMsg s0)).
  destruct H0 as (Hr & Ho & Hi & Hc & Hs & Hty & Hdu & Hst).
  destruct (opening_tick t1 s0 Hi Ho)
    as (Hr1 & Ho1 & Hi1 & Hc1 & Hs1 & Hty1 & Hdu1 & Hst1).
  cbv zeta in Hr1, Ho1. set (s1 := fst (Update t1 tickMsg s0)) in *.
  rewrite Hr in Hr1, Ho1. rewrite Hdu in Ho1.
  replace (d + 3 * Second - 1 * Second) with (d + 2 * Second) in Hr1, Ho1 by ring.
  rewrite W in Hr1, Ho1 by (rewrite HS; lia).
  rewrite (Q 2) in Ho1 by lia. cbn [negb] in Ho1.
  destruct (opening_tick t2 s1 Hi1 Ho1)
    as (Hr2 & Ho2 & Hi2 & Hc2 & Hs2 & Hty2 & Hdu2 & Hst2).
  cbv zeta in Hr2, Ho2. set (s2 := fst (Update t2 tickMsg s1)) in *.
  rewrite Hr1 in Hr2, Ho2. rewrite Hdu1, Hdu in Ho2.
  replace (d + 2 * Second - 1 * Second) with (d + 1 * Second) in Hr2, Ho2 by ring.
  rewrite W in Hr2, Ho2 by (rewrite HS; lia).
  rewrite (Q 1) in Ho2 by lia. cbn [negb] in Ho2.
  destruct (opening_tick t3 s2 Hi2 Ho2)
    as (Hr3 & Ho3 & Hi3 & Hc3 & Hs3 & Hty3 & Hdu3 & Hst3).
  cbv zeta in Hr3, Ho3. set (s3 := fst (Update t3 tickMsg s2)) in *.
  rewrite Hr2 in Hr3, Ho3. rewrite Hdu2, Hdu1, Hdu in Ho3.
  replace (d + 1 * Second - 1 * Second) with d in Hr3, Ho3 by ring.
  rewrite W in Hr3, Ho3 by (rewrite HS; lia).
  rewrite Z.leb_refl in Ho3. cbn [negb] in Ho3.
  split; [apply phase_Active; repeat split; congruence|].
  destruct (completion_tick t4 s3 Hi3 Ho3) as (_ & Hp4 & Hs4 & _).
  - rewrite Hr3, W by (rewrite HS; lia). rewrite HS. lia.
  - congruence.
  - cbv zeta in Hs4. split; [exact Hp4|]. split; [|lia].
    rewrite Hs4. congruence.
Qed.
End Dates.

Section Flags.
Context {E : Externals}.

Lemma flags_step (now : Time) (msg : Msg) (m : model) :
  phase_flags (flags m) -> phase_flags (flags (fst (Update now msg m))).
Proof.
  unfold phase_flags, flags. intros H.
  destruct msg as [k|w h| |].
  - destruct (inSession m) eqn:Hi.
    + destruct (key_in_session now k m Hi)
        as ((_ & _ & _ & _ & _ & _ & Ho & Hc) & _ & [Hin|(Hin & _ & Hph)]).
      * rewrite Hin, Ho, Hc. exact H.
      * apply phase_Active in Hph. destruct Hph as (_ & Ho' & Hc').
        rewrite Hin, Ho, Hc, Ho', Hc'. auto.
    + assert (Hoc : opening m = false /\ closing m = false)
        by (destruct H as [H|[H|[H|H]]]; inversion H; auto).
      destruct Hoc as [Ho Hc].
      rewrite key_idle by exact Hi. cbv zeta.
      destruct (showSession m && Matches k Stop); [fields; rewrite Hi, Ho, Hc; auto|].
      destruct (_ || _); [fields; rewrite Hi, Ho, Hc; auto|].
      destruct (key_Type k =? 113); [fields; rewrite Hi, Ho, Hc; auto|].
      destruct (key_Type k =? key_Type KeyEnter); [|fields; rewrite Hi, Ho, Hc; auto].
      unfold enter, startCommand, listCommand, start. fields.
      ifs; fields; rewrite ?Hi, ?Ho, ?Hc; auto.
  - unfold Update, windowSize. fields. destruct (_ >? _); fields; exact H.
  - unfold Update, tick. fields.
    destruct (inSession m) eqn:Hi; fields; [|rewrite Hi; exact H].
    destruct (opening m) eqn:Ho.
    + assert (Hc : closing m = false)
        by (destruct H as [H|[H|[H|H]]]; inversion H; auto).
      destruct (_ <=? _); fields; rewrite Hi, Hc, ?Ho; auto.
    + destruct (Qle_bool _ (inject_Z (-4))).
      * destruct (String.eqb _ _); [destruct (saveSessions _)|]; fields;
          rewrite ?Ho; auto.
      * destruct (Qle_bool _ _); fields; rewrite Hi, Ho; auto.
  - exact H.
Qed.

(** X17.  From the initial model, whatever messages arrive, the flags
    [inSession], [opening] and [closing] are in one of four combinations:
    none set, [inSession] with [opening], [inSession] alone, [inSession]
    with [closing].  So [opening] and [closing] are never set together and
    never outside a session. *)
Theorem flags_invariant (evs : list (Time * Msg)) (loaded : list session) :
  phase_flags (flags (run evs (initialModel loaded))).
Proof.
  induction evs as [|ev evs IH] using rev_ind.
  - left. reflexivity.
  - rewrite run_app. cbn [run fold_left]. apply flags_step. exact IH.
Qed.
End Flags.

(** ** The further properties at concrete runs *)

(** A tick in the active minute of work returns the tick command. *)
Lemma tick_chain_witness :
  inSession (fst (@Update (desk saves) 1 tickMsg work_active)) = true
  /\ snd (@Update (desk saves) 1 tickMsg work_active) = CmdTick.
Proof.
  assert (H : inSession (fst (@Update (desk saves) 1 tickMsg work_active)) = true)
    by (vm_compute; reflexivity).
  split; [exact H|].
  exact (proj2 (@tick_chain (desk saves) 1 work_active) H).
Defined.

(** The last tick of one minute of work. *)
Lemma session_identity_fixed_witness :
  let m' := fst (@Update (desk saves) 1 tickMsg work_closing) in
  inSession work_closing = true
  /\ sessionType m' = sessionType work_closing
  /\ timerDuration m' = timerDuration work_closing
  /\ startTime m' = startTime work_closing.
Proof.
  cbv zeta.
  assert (H : inSession work_closing = true) by (vm_compute; reflexivity).
  split; [exact H|].
  exact (@session_identity_fixed (desk saves) 1 tickMsg work_closing H).
Defined.

(** One minute of work at the ticks of a clock that stands at 5: after 2, 10, 64
    and 67 of them. *)
Lemma session_timeline_witness :
  let s k := @ticks (desk saves) (repeat 5 k) (start workSession 1 0 prompt) in
  let len k := Z.of_nat (List.length (repeat 5 k)) in
  (fits 1 /\ len 2%nat < 3 /\ 3 <= len 10%nat < 60 * 1 + 3
   /\ 60 * 1 + 3 <= len 64%nat < 60 * 1 + 7 /\ len 67%nat = 60 * 1 + 7)
  /\ phase (s 2%nat) = Opening /\ phase (s 10%nat) = Active
  /\ phase (s 64%nat) = Closing
  /\ (phase (s 67%nat) = Idle
      /\ sessions (s 67%nat)
         = (sessions prompt
            ++ logged workSession
                 (mkSession 0 (last (repeat 5 67%nat) 0) (1 * Minute)))%list).
Proof.
  cbv zeta.
  assert (Hf : fits 1) by (unfold fits; lia).
  pose proof (fun k => @session_timeline (desk saves) workSession 1 0 prompt
                         (repeat 5 k) Hf) as W.
  cbv zeta in W.
  assert (L : forall k, List.length (repeat 5 k) = k) by (intros; apply repeat_length).
  assert (H : Z.of_nat (List.length (repeat 5 2%nat)) < 3
              /\ 3 <= Z.of_nat (List.length (repeat 5 10%nat)) < 60 * 1 + 3
              /\ 60 * 1 + 3 <= Z.of_nat (List.length (repeat 5 64%nat)) < 60 * 1 + 7
              /\ Z.of_nat (List.length (repeat 5 67%nat)) = 60 * 1 + 7).
  { rewrite !L. lia. }
  destruct H as (H1 & H2 & H3 & H4).
  split; [auto 6|].
  split; [exact (proj1 (proj2 (W 2%nat)) H1)|].
  split; [exact (proj1 (proj2 (proj2 (W 10%nat))) H2)|].
  split; [exact (proj1 (proj2 (proj2 (proj2 (W 64%nat)))) H3)|].
  exact (proj1 (proj2 (proj2 (proj2 (proj2 (W 67%nat))))) H4).
Defined.

(** One minute of work after 40 ticks. *)
Lemma percent_bounds_witness :
  let s := @ticks (desk saves) (repeat 5 40%nat) (start workSession 1 0 prompt) in
  fits 1 /\ (0 <= percent s)%Q /\ (percent s < 1)%Q.
Proof.
  cbv zeta.
  assert (Hf : fits 1) by (unfold fits; lia).
  split; [exact Hf|].
  exact (@percent_bounds (desk saves) workSession 1 0 prompt (repeat 5 40%nat) Hf).
Defined.

(** A break of five minutes after 1 tick and after 305 ticks. *)
Lemma session_screens_witness :
  let s k := @ticks (desk saves) (repeat 5 k) (start breakSession 5 0 prompt) in
  let len k := Z.of_nat (List.length (repeat 5 k)) in
  (fits 5 /\ showSession prompt = false /\ len 1%nat < 3
   /\ 60 * 5 + 3 <= len 305%nat < 60 * 5 + 7)
  /\ View (s 1%nat) = OpeningScreen breakSession (Minutes (5 * Minute)) (3 - len 1%nat)
  /\ View (s 305%nat) = ClosingScreen breakSession.
Proof.
  cbv zeta.
  assert (Hf : fits 5) by (unfold fits; lia).
  pose proof (fun k => @session_screens (desk saves) breakSession 5 0 prompt
                         (repeat 5 k) Hf eq_refl) as W.
  cbv zeta in W.
  assert (L : forall k, List.length (repeat 5 k) = k) by (intros; apply repeat_length).
  assert (H : Z.of_nat (List.length (repeat 5 1%nat)) < 3
              /\ 60 * 5 + 3 <= Z.of_nat (List.length (repeat 5 305%nat)) < 60 * 5 + 7).
  { rewrite !L. lia. }
  destruct H as (H1 & H2).
  split; [auto 6|].
  split; [exact (proj1 (W 1%nat) H1)|].
  exact (proj1 (proj2 (proj2 (W 305%nat))) H2).
Defined.

(** One minute of work, then two minutes of work. *)
Lemma two_work_sessions_witness :
  let first := @ticks (desk saves) (repeat 5 67%nat) (start workSession 1 0 prompt) in
  let second := @ticks (desk saves) (repeat 9 127%nat) (start workSession 2 6 first) in
  (fits 1 /\ fits 2
   /\ Z.of_nat (List.length (repeat 5 67%nat)) = 60 * 1 + 7
   /\ Z.of_nat (List.length (repeat 9 127%nat)) = 60 * 2 + 7)
  /\ phase second = Idle
  /\ sessions second
     = (sessions prompt
        ++ [mkSession 0 (last (repeat 5 67%nat) 0) (1 * Minute);
            mkSession 6 (last (repeat 9 127%nat) 0) (2 * Minute)])%list.
Proof.
  cbv zeta.
  assert (Hf1 : fits 1) by (unfold fits; lia).
  assert (Hf2 : fits 2) by (unfold fits; lia).
  assert (H1 : Z.of_nat (List.length (repeat 5 67%nat)) = 60 * 1 + 7)
    by (rewrite repeat_length; reflexivity).
  assert (H2 : Z.of_nat (List.length (repeat 9 127%nat)) = 60 * 2 + 7)
    by (rewrite repeat_length; reflexivity).
  split; [auto|].
  exact (@two_work_sessions (desk saves) 1 2 0 6 prompt (repeat 5 67%nat)
           (repeat 9 127%nat) Hf1 Hf2 H1 H2).
Defined.

(** Esc in the active minute of work. *)
Lemma quit_only_from_keys_witness :
  let r := @Update (desk saves) 1 (KeyMsg KeyEsc) work_active in
  snd r = CmdQuit
  /\ (exists k, KeyMsg KeyEsc = KeyMsg k)
  /\ (phase work_active = Idle \/ phase work_active = Active)
  /\ timer (fst r) = timer work_active
  /\ sessions (fst r) = sessions work_active.
Proof.
  cbv zeta.
  assert (H : snd (@Update (desk saves) 1 (KeyMsg KeyEsc) work_active) = CmdQuit)
    by (vm_compute; reflexivity).
  split; [exact H|].
  exact (@quit_only_from_keys (desk saves) 1 (KeyMsg KeyEsc) work_active H).
Defined.

(** The key [q] in the active minute and at the prompt, ctrl+c at the prompt and
    in the opening. *)
Lemma quit_keys_witness :
  (phase work_active = Active /\ Matches (KeyRunes "q") Quit = true
   /\ phase prompt = Idle /\ phase work_opening = Opening)
  /\ snd (@Update (desk saves) 1 (KeyMsg (KeyRunes "q")) work_active) = CmdQuit
  /\ snd (@Update (desk saves) 1 (KeyMsg KeyCtrlC) prompt) = CmdQuit
  /\ snd (@Update (desk saves) 1 (KeyMsg (KeyRunes "q")) prompt) = CmdNil
  /\ snd (@Update (desk saves) 1 (KeyMsg KeyCtrlC) work_opening) = CmdNil.
Proof.
  assert (Ha : phase work_active = Active) by (vm_compute; reflexivity).
  assert (Hi : phase prompt = Idle) by reflexivity.
  assert (Ho : phase work_opening = Opening) by (vm_compute; reflexivity).
  split; [auto|].
  split; [exact (proj1 (@quit_keys (desk saves) 1 (KeyRunes "q") work_active)
                   Ha eq_refl)|].
  split; [exact (proj1 (proj2 (@quit_keys (desk saves) 1 KeyCtrlC prompt))
                   (or_introl Hi) (or_introl eq_refl))|].
  split; [exact (proj1 (proj2 (proj2 (@quit_keys (desk saves) 1 (KeyRunes "q") prompt)))
                   Hi "q" eq_refl)|].
  exact (proj2 (proj2 (proj2 (@quit_keys (desk saves) 1 KeyCtrlC work_opening)))
           (or_introl Ho)).
Defined.

(** The key [x], twice, with the list opened over the active minute of work. *)
Lemma stop_with_list_open_witness :
  let m1 := fst (@Update (desk saves) 4 (KeyMsg (KeyRunes "x")) listed_active) in
  let m2 := fst (@Update (desk saves) 5 (KeyMsg (KeyRunes "x")) m1) in
  (Matches (KeyRunes "x") Stop = true /\ showSession listed_active = true
   /\ phase listed_active = Active)
  /\ phase m1 = Idle /\ showSession m1 = true
  /\ View m1 = SessionsScreen (sessions listed_active)
                 (printDifferentDate listed_active) (datePrint listed_active)
  /\ phase m2 = Idle /\ showSession m2 = false /\ textarea m2 = "".
Proof.
  cbv zeta.
  assert (Hs : Matches (KeyRunes "x") Stop = true) by reflexivity.
  assert (Hv : showSession listed_active = true) by (vm_compute; reflexivity).
  assert (Hp : phase listed_active = Active) by (vm_compute; reflexivity).
  split; [auto|].
  exact (proj1 (@stop_with_list_open (desk saves) 4 5 (KeyRunes "x") listed_active
                  Hs Hv) Hp).
Defined.

(** The key [a] at the prompt that reports a line that was no command. *)
Lemma key_clears_error_witness :
  let r := @Update (desk saves) 4 (KeyMsg (KeyRunes "a")) mistyped in
  (phase mistyped = Idle
   /\ showSession mistyped && Matches (KeyRunes "a") Stop = false
   /\ KeyRunes "a" <> KeyEnter)
  /\ err (fst r) = "" /\ snd r <> CmdTick
  /\ timer (fst r) = timer mistyped /\ sessions (fst r) = sessions mistyped
  /\ showSession (fst r) = showSession mistyped.
Proof.
  cbv zeta.
  assert (Hp : phase mistyped = Idle) by (vm_compute; reflexivity).
  assert (Hs : showSession mistyped && Matches (KeyRunes "a") Stop = false)
    by (vm_compute; reflexivity).
  assert (Hk : KeyRunes "a" <> KeyEnter) by discriminate.
  split; [auto|].
  exact (@key_clears_error (desk saves) 4 (KeyRunes "a") mistyped Hp Hs Hk).
Defined.

(** The line [zzz] at the prompt. *)
Lemma unknown_command_witness :
  let m := typing "zzz" prompt in
  let line := @textarea_Update (desk saves) (KeyMsg KeyEnter) (textarea m) in
  let r := @Update (desk saves) 3 (KeyMsg KeyEnter) m in
  ((phase m = Idle \/ phase m = Active) /\ line <> "q"
   /\ HasPrefix line "s" = false /\ HasPrefix line "b" = false
   /\ HasPrefix line "l" = false)
  /\ err (fst r) = "Invalid command" /\ textarea (fst r) = "" /\ snd r = CmdNil
  /\ timer (fst r) = timer m /\ sessions (fst r) = sessions m
  /\ showSession (fst r) = showSession m.
Proof.
  cbv zeta.
  assert (Hp : phase (typing "zzz" prompt) = Idle
               \/ phase (typing "zzz" prompt) = Active)
    by (left; vm_compute; reflexivity).
  assert (Hq : @textarea_Update (desk saves) (KeyMsg KeyEnter)
                 (textarea (typing "zzz" prompt)) <> "q")
    by (intros H; vm_compute in H; discriminate H).
  assert (Hs : HasPrefix (@textarea_Update (desk saves) (KeyMsg KeyEnter)
                            (textarea (typing "zzz" prompt))) "s" = false)
    by (vm_compute; reflexivity).
  assert (Hb : HasPrefix (@textarea_Update (desk saves) (KeyMsg KeyEnter)
                            (textarea (typing "zzz" prompt))) "b" = false)
    by (vm_compute; reflexivity).
  assert (Hl : HasPrefix (@textarea_Update (desk saves) (KeyMsg KeyEnter)
                            (textarea (typing "zzz" prompt))) "l" = false)
    by (vm_compute; reflexivity).
  split; [auto 6|].
  exact (@unknown_command (desk saves) 3 (typing "zzz" prompt) Hp Hq Hs Hb Hl).
Defined.

(** The line [s five] in the active minute of work. *)
Lemma rejected_start_witness :
  let m := typing "s five" work_active in
  let line := @textarea_Update (desk saves) (KeyMsg KeyEnter) (textarea m) in
  let r := @Update (desk saves) 3 (KeyMsg KeyEnter) m in
  ((phase m = Idle \/ phase m = Active)
   /\ (HasPrefix line "s" = true \/ HasPrefix line "b" = true)
   /\ ok (@checkValidMinute (desk saves) line) = false)
  /\ snd r = CmdNil /\ timer (fst r) = timer m /\ sessions (fst r) = sessions m
  /\ err (fst r) = match reason (@checkValidMinute (desk saves) line) with
                   | Some e => e
                   | None => ""
                   end.
Proof.
  cbv zeta.
  assert (Hp : phase (typing "s five" work_active) = Idle
               \/ phase (typing "s five" work_active) = Active)
    by (right; vm_compute; reflexivity).
  assert (Hs : HasPrefix (@textarea_Update (desk saves) (KeyMsg KeyEnter)
                            (textarea (typing "s five" work_active))) "s" = true
               \/ HasPrefix (@textarea_Update (desk saves) (KeyMsg KeyEnter)
                               (textarea (typing "s five" work_active))) "b" = true)
    by (left; vm_compute; reflexivity).
  assert (Hok : ok (@checkValidMinute (desk saves)
                      (@textarea_Update (desk saves) (KeyMsg KeyEnter)
                         (textarea (typing "s five" work_active)))) = false)
    by (vm_compute; reflexivity).
  split; [auto|].
  exact (@rejected_start (desk saves) 3 (typing "s five" work_active) Hp Hs Hok).
Defined.

(** A window 5 wide in the active minute of work. *)
Lemma window_size_witness :
  let r := @Update (desk saves) 1 (WindowSizeMsg 5 24) work_active in
  min_int64 + 8 <= 5 <= max_int64
  /\ progress_Width (fst r) = Z.min (5 - 8) maxWidth
  /\ progress_Width (fst r) < 0
  /\ snd r = CmdNil /\ timer (fst r) = timer work_active.
Proof.
  cbv zeta.
  assert (H : min_int64 + 8 <= 5 <= max_int64)
    by (split; vm_compute; discriminate).
  pose proof (@window_size (desk saves) 1 5 24 work_active H) as W.
  cbv zeta in W.
  destruct W as (W1 & _ & W3 & W4 & W5 & _).
  split; [exact H|]. split; [exact W1|].
  split; [apply W3; reflexivity|]. split; [exact W4|exact W5].
Defined.

(** The line [l 2024-02-29] in the active minute of work. *)
Lemma list_for_date_witness :
  let m := typing "l 2024-02-29" work_active in
  let d := mkDate 2024 2 29 in
  let line := @textarea_Update (desk saves) (KeyMsg KeyEnter) (textarea m) in
  let r := @Update (desk saves) 3 (KeyMsg KeyEnter) m in
  ((phase m = Idle \/ phase m = Active) /\ calendar d /\ line = "l " ++ iso d)
  /\ showSession (fst r) = true /\ printDifferentDate (fst r) = true
  /\ datePrint (fst r) = d /\ err (fst r) = ""
  /\ View (fst r) = SessionsScreen (sessions m) true d.
Proof.
  cbv zeta.
  assert (Hp : phase (typing "l 2024-02-29" work_active) = Idle
               \/ phase (typing "l 2024-02-29" work_active) = Active)
    by (right; vm_compute; reflexivity).
  assert (Hd : calendar (mkDate 2024 2 29)).
  { unfold calendar, leap. cbn [year month day].
    split; [lia|]. split; [lia|]. split; [lia|]. right.
    split; [reflexivity|]. split; [reflexivity|]. left.
    split; [reflexivity|discriminate]. }
  assert (Hl : @textarea_Update (desk saves) (KeyMsg KeyEnter)
                 (textarea (typing "l 2024-02-29" work_active))
               = "l " ++ iso (mkDate 2024 2 29))
    by (vm_compute; reflexivity).
  split; [auto|].
  exact (@list_for_date (desk saves) 3 (typing "l 2024-02-29" work_active)
           (mkDate 2024 2 29) Hp Hd Hl).
Defined.

(** A work session of 153722868 minutes. *)
Lemma negative_duration_session_witness :
  let n := 153722868 in
  let d := wrap64 (n * Minute) in
  let s := @ticks (desk saves) [1; 2; 3; 4] (start workSession n 0 prompt) in
  min_int64 + Second <= d <= -3 * Second
  /\ phase (@ticks (desk saves) [1; 2; 3] (start workSession n 0 prompt)) = Active
  /\ phase s = Idle
  /\ sessions s = (sessions prompt ++ [mkSession 0 4 d])%list
  /\ d < 0.
Proof.
  cbv zeta.
  assert (H : min_int64 + Second <= wrap64 (153722868 * Minute) <= -3 * Second)
    by (split; vm_compute; discriminate).
  split; [exact H|].
  exact (@negative_duration_session (desk saves) 153722868 0 1 2 3 4 prompt H).
Defined.
